(** * Quizzify: the generation-validation loop of [QuizBuilder]

    A shallow embedding of [app/api/features/quizzify.py]: the question
    schema registry ([get_parser_for_question_type]), the constructor
    [QuizBuilder.__init__], the pipeline builder [compile], the validation
    gate [validate_question] and the retry loop [create_questions].

    Python values decoded from JSON are an inductive type with dictionaries
    as finite maps; exceptions are an explicit [outcome]; the mutable
    builder object and the calls made to the external collaborators
    (vector store, retrieval chain) are threaded through a state and
    exception monad.  The collaborators themselves (the constructors of the
    Google clients, the prompt file, the vector store, the chain's replies
    and pydantic's model construction) are the fields of an environment
    record over which every statement is quantified.  Logging is not
    modelled. *)

From Stdlib Require Import ZArith String List Lia Floats Ascii.
From stdpp Require Import base gmap strings list.
From Equations Require Import Equations.

Local Open Scope string_scope.
Local Open Scope Z_scope.

(** ** Python values *)

(** The values [json.loads] produces: [None], booleans, integers, floats,
    strings, lists and dictionaries with string keys. *)
#[warnings="-register-all"]
Inductive value : Type :=
| VNone
| VBool (b : bool)
| VInt (z : Z)
| VFloat (f : float)
| VStr (s : string)
| VList (l : list value)
| VDict (d : gmap string value).

(** Exceptions, by class. [ProviderError] stands for whatever a provider
    (embedding model, generative model, vector store) raises. *)
Inductive exn : Type :=
| ValueError (msg : string)
| TypeError (msg : string)
| AttributeError (msg : string)
| OSError (msg : string)
| OutputParserException (llm_output : string)
| ProviderError (msg : string).

(** The result of evaluating a Python expression or call. *)
Inductive outcome (A : Type) : Type :=
| Returned (a : A)
| Raised (e : exn).
Arguments Returned {A} a.
Arguments Raised {A} e.

Definition is_returned {A} (o : outcome A) : bool :=
  match o with Returned _ => true | Raised _ => false end.

(** [l[:n]] on a list, for any integer [n]: a negative bound counts from the
    end. *)
Definition py_slice_to {A} (l : list A) (n : Z) : list A :=
  if 0 <=? n then firstn (Z.to_nat n) l
  else firstn (Z.to_nat (Z.of_nat (length l) + n)) l.

(** [x or default] where [x] is an object or [None]: objects are truthy. *)
Definition py_or {A} (x : option A) (default : A) : A :=
  match x with Some a => a | None => default end.

(** [x or default] where [x] is a string or [None]: the empty string is
    falsy. *)
Definition py_or_str (x : option string) (default : string) : string :=
  match x with
  | Some EmptyString => default
  | Some s => s
  | None => default
  end.

(** [needle in haystack] for two strings: substring test. *)
Definition str_contains (needle haystack : string) : bool :=
  match String.index 0 needle haystack with Some _ => true | None => false end.

(** ** Question schemas (the pydantic classes at the end of the module) *)

(** Annotations of the declared fields. *)
#[warnings="-register-all"]
Inductive FieldType : Type :=
| TStr
| TBool
| TList (elem : FieldType)
| TModel (class_name : string) (fields : list (string * FieldType)).

(** A top-level question class: its annotated fields, all declared with
    [Field(description=...)] and no default, hence required, and the
    un-annotated class attributes that carry a default ([model_config]). *)
Record Schema : Type := mkSchema {
  schema_name : string;
  schema_fields : list (string * FieldType);
  schema_attrs : list string
}.

Definition QuestionBlank : FieldType :=
  TModel "QuestionBlank" [("key", TStr); ("value", TStr)].

Definition FillInTheBlankQuestion : Schema :=
  mkSchema "FillInTheBlankQuestion"
    [("question", TStr); ("blanks", TList QuestionBlank);
     ("word_bank", TList TStr); ("explanation", TStr)]
    ["model_config"].

Definition OpenEndedQuestion : Schema :=
  mkSchema "OpenEndedQuestion"
    [("question", TStr); ("answer", TStr); ("feedback", TList TStr)]
    ["model_config"].

Definition TrueFalseQuestion : Schema :=
  mkSchema "TrueFalseQuestion"
    [("question", TStr); ("answer", TBool); ("explanation", TStr)]
    ["model_config"].

Definition QuestionChoice : FieldType :=
  TModel "QuestionChoice" [("key", TStr); ("value", TStr)].

Definition MultipleChoiceQuestion : Schema :=
  mkSchema "MultipleChoiceQuestion"
    [("question", TStr); ("choices", TList QuestionChoice);
     ("answer", TStr); ("explanation", TStr)]
    ["model_config"].

Definition TermMeaningPair : FieldType :=
  TModel "TermMeaningPair" [("term", TStr); ("meaning", TStr)].

Definition RelateConceptsQuestion : Schema :=
  mkSchema "RelateConceptsQuestion"
    [("question", TStr); ("pairs", TList TermMeaningPair);
     ("answer", TList TermMeaningPair); ("explanation", TStr)]
    ["model_config"].

Definition MathExerciseQuestion : Schema :=
  mkSchema "MathExerciseQuestion"
    [("question", TStr); ("solution", TStr);
     ("correct_answer", TStr); ("explanation", TStr)]
    ["model_config"].

(** The dictionary literal of [get_parser_for_question_type], in source
    order, and [dict.get] on it. *)
Definition schema_mapping : list (string * Schema) :=
  [("fill_in_the_blank", FillInTheBlankQuestion);
   ("open_ended", OpenEndedQuestion);
   ("true_false", TrueFalseQuestion);
   ("multiple_choice", MultipleChoiceQuestion);
   ("relate_concepts", RelateConceptsQuestion);
   ("math_exercises", MathExerciseQuestion);
   ("default", MultipleChoiceQuestion)].

Fixpoint dict_get {A} (d : list (string * A)) (k : string) : option A :=
  match d with
  | [] => None
  | (k', a) :: d' => if String.eqb k' k then Some a else dict_get d' k
  end.

(** The six question types the interface documents. *)
Definition documented_types : list string :=
  ["fill_in_the_blank"; "open_ended"; "true_false";
   "multiple_choice"; "relate_concepts"; "math_exercises"].

(** ** Collaborators *)

Record Document : Type := mkDocument {
  page_content : string;
  source : string
}.

Inductive LLM : Type := mkLLM (model_name : string).
Inductive Embeddings : Type := mkEmbeddings (model_name : string).
Inductive VectorstoreClass : Type := Chroma | CustomStore (name : string).

Inductive OutputParser : Type :=
| JsonOutputParser (pydantic_object : Schema)
| CustomParser (name : string).

(** A vector store built by [from_documents]: its collection and contents. *)
Record Vectorstore : Type := mkVectorstore {
  collection : nat;
  vs_class : VectorstoreClass;
  vs_documents : list Document;
  vs_embedding : Embeddings
}.

Inductive Retriever : Type := as_retriever (vs : Vectorstore).

(** [RunnableParallel({"context": retriever,
                       "attribute_collection": RunnablePassthrough()})] *)
Inductive Runner : Type := RunnableParallel (context : Retriever).

Record PromptTemplate : Type := mkPromptTemplate {
  template : string;
  input_variables : list string;
  format_instructions : OutputParser
}.

(** [runner | prompt | model | parser] *)
Record Chain : Type := mkChain {
  chain_runner : Runner;
  chain_prompt : PromptTemplate;
  chain_model : LLM;
  chain_parser : OutputParser
}.

(** What one [chain.invoke] does, seen from the caller.  The chain runs the
    retriever, renders the prompt, calls the model and hands the text to the
    parser; an exception of any stage leaves [invoke].  [JsonOutputParser]
    raises [OutputParserException] on text that is not JSON and returns the
    decoded value otherwise. *)
Inductive ChainReply : Type :=
| StageRaises (e : exn)
| MalformedJson (text : string)
| Json (v : value).

(** The collaborators of one run.  [chain_reply k] is what the chain does on
    its [k]-th invocation (counted from 0); [pydantic_init schema kwargs]
    tells whether calling the class [schema] with the keyword arguments
    [kwargs] constructs a model. *)
Record Env : Type := mkEnv {
  new_GoogleGenerativeAI : string -> outcome LLM;
  new_GoogleGenerativeAIEmbeddings : string -> outcome Embeddings;
  read_text_file : string -> outcome string;
  from_documents_error :
    VectorstoreClass -> list Document -> Embeddings -> option exn;
  chain_reply : nat -> ChainReply;
  pydantic_init : Schema -> gmap string value -> bool
}.

(** ** The builder object and the state of a run *)

Record QuizBuilder : Type := mkQuizBuilder {
  question_type : string;
  prompt : string;
  model : LLM;
  parser : OutputParser;
  embedding_model : Embeddings;
  vectorstore_class : VectorstoreClass;
  vectorstore : option Vectorstore;
  retriever : option Retriever;
  runner : option Runner;
  topic : string;
  lang : string;
  verbose : bool
}.

(** [self.vectorstore, self.retriever, self.runner = vs, r, rn] *)
Definition set_pipeline (b : QuizBuilder)
    (vs : Vectorstore) (r : Retriever) (rn : Runner) : QuizBuilder :=
  mkQuizBuilder (question_type b) (prompt b) (model b) (parser b)
    (embedding_model b) (vectorstore_class b)
    (Some vs) (Some r) (Some rn) (topic b) (lang b) (verbose b).

(** Calls that reach a collaborator, in the order they are made. *)
Inductive event : Type :=
| EvFromDocuments (documents : list Document)
| EvInvoke (input : string)
| EvDeleteCollection (collection : nat).

(** The builder [self], the number of chain invocations and of collections
    created so far, and the log of calls. *)
Record State : Type := mkState {
  self : QuizBuilder;
  chain_calls : nat;
  collections : nat;
  events : list event
}.

Definition fresh_state (b : QuizBuilder) : State := mkState b 0 0 [].

(** The state once the chain has been invoked on [input]. *)
Definition invoked (input : string) (st : State) : State :=
  mkState (self st) (S (chain_calls st)) (collections st)
    (events st ++ [EvInvoke input])%list.

Definition is_invoke (e : event) : bool :=
  match e with EvInvoke _ => true | _ => false end.

Definition is_delete (e : event) : bool :=
  match e with EvDeleteCollection _ => true | _ => false end.

Definition is_build (e : event) : bool :=
  match e with EvFromDocuments _ => true | _ => false end.

Definition count_events (p : event -> bool) (l : list event) : nat :=
  length (List.filter p l).

(** ** A state and exception monad *)

Definition M (A : Type) : Type := State -> outcome A * State.

Definition ret {A} (a : A) : M A := fun st => (Returned a, st).

Definition raise {A} (e : exn) : M A := fun st => (Raised e, st).

Definition bind {A B} (c : M A) (k : A -> M B) : M B :=
  fun st =>
    match c st with
    | (Returned a, st') => k a st'
    | (Raised e, st') => (Raised e, st')
    end.

Definition get_self : M QuizBuilder := fun st => (Returned (self st), st).

Definition set_self (b : QuizBuilder) : M unit :=
  fun st => (Returned tt, mkState b (chain_calls st) (collections st) (events st)).

Definition log (e : event) : M unit :=
  fun st =>
    (Returned tt,
     mkState (self st) (chain_calls st) (collections st) (events st ++ [e])%list).

Declare Scope py_scope.
Delimit Scope py_scope with py.
Notation "'let*' x := c 'in' k" := (bind c (fun x => k))
  (at level 10, x name, c at level 200, k at level 200) : py_scope.
Notation "'do' c 'then' k" := (bind c (fun _ => k))
  (at level 10, c at level 200, k at level 200) : py_scope.

(** Sequencing for code that raises but touches no state. *)
Definition and_then {A B} (o : outcome A) (k : A -> outcome B) : outcome B :=
  match o with Returned a => k a | Raised e => Raised e end.

Notation "'try!' x := o 'in' k" := (and_then o (fun x => k))
  (at level 10, x name, o at level 200, k at level 200) : py_scope.

Local Open Scope py_scope.

(** ** QuizBuilder *)

(** [get_parser_for_question_type]: look the type up, raise on [None]. *)
Definition get_parser_for_question_type (question_type : string)
    : outcome OutputParser :=
  match dict_get schema_mapping question_type with
  | None =>
      Raised (ValueError
                (String.append "Unsupported question type: " question_type))
  | Some schema => Returned (JsonOutputParser schema)
  end.

(** Lines 133-134: [if "model_config" in response: del response[...]].
    On a dictionary the key is deleted; membership in a list compares the
    elements with the string, in a string it is a substring test, and
    [del] on either raises; membership in any other value raises. *)
Definition is_model_config (v : value) : bool :=
  match v with VStr s => String.eqb s "model_config" | _ => false end.

Definition discard_model_config (response : value) : outcome value :=
  match response with
  | VDict d =>
      if bool_decide (is_Some (d !! "model_config"))
      then Returned (VDict (delete "model_config" d))
      else Returned (VDict d)
  | VList l =>
      if existsb is_model_config l
      then Raised (TypeError "list indices must be integers or slices, not str")
      else Returned (VList l)
  | VStr s =>
      if str_contains "model_config" s
      then Raised (TypeError "'str' object doesn't support item deletion")
      else Returned (VStr s)
  | VNone =>
      Raised (TypeError "argument of type 'NoneType' is not iterable")
  | VBool _ => Raised (TypeError "argument of type 'bool' is not iterable")
  | VInt _ => Raised (TypeError "argument of type 'int' is not iterable")
  | VFloat _ => Raised (TypeError "argument of type 'float' is not iterable")
  end.

Section Run.

Variable env : Env.

(** [QuizBuilder.__init__].  The dictionary [default_config] is evaluated
    entry by entry, in order, before any override is looked at. *)
Definition __init__ (topic : option string) (question_type : string)
    (lang : string) (vectorstore_class : option VectorstoreClass)
    (prompt : option string) (embedding_model : option Embeddings)
    (model : option LLM) (parser : option OutputParser) (verbose : bool)
    : outcome QuizBuilder :=
  try! default_model := new_GoogleGenerativeAI env "gemini-1.5-pro" in
  try! default_embedding :=
    new_GoogleGenerativeAIEmbeddings env "models/embedding-001" in
  try! default_parser := get_parser_for_question_type question_type in
  try! default_prompt := read_text_file env "prompt/quizzify-prompt.txt" in
  let default_vectorstore_class := Chroma in
  let self_prompt := py_or_str prompt default_prompt in
  let self_model := py_or model default_model in
  let self_parser := py_or parser default_parser in
  let self_embedding := py_or embedding_model default_embedding in
  let self_vectorstore_class :=
    py_or vectorstore_class default_vectorstore_class in
  match vectorstore_class, topic with
  | None, _ => Raised (ValueError "Vectorstore must be provided")
  | Some _, None => Raised (ValueError "Topic must be provided")
  | Some _, Some self_topic =>
      Returned (mkQuizBuilder question_type self_prompt self_model self_parser
                  self_embedding self_vectorstore_class None None None
                  self_topic lang verbose)
  end.

(** [vectorstore_class.from_documents(documents, embedding_model)] *)
Definition from_documents (cls : VectorstoreClass)
    (documents : list Document) (embedding : Embeddings) : M Vectorstore :=
  do log (EvFromDocuments documents) then
  match from_documents_error env cls documents embedding with
  | Some e => raise e
  | None =>
      fun st =>
        (Returned (mkVectorstore (collections st) cls documents embedding),
         mkState (self st) (chain_calls st) (S (collections st)) (events st))
  end.

(** [vectorstore.delete_collection()]: the call is logged.  What the store
    does when its collection is already gone is the store's affair and is
    not modelled; the statements below that reach a second release speak of
    the calls made, not of how that release ends. *)
Definition delete_collection (vs : Vectorstore) : M unit :=
  log (EvDeleteCollection (collection vs)).

(** [chain.invoke(input)]: one more call, answered by the environment. *)
Definition invoke (chain : Chain) (input : string) : M value :=
  fun st =>
    let st' := invoked input st in
    match chain_reply env (chain_calls st) with
    | StageRaises e => (Raised e, st')
    | MalformedJson text => (Raised (OutputParserException text), st')
    | Json v => (Returned v, st')
    end.

(** [compile]: the vector store is built only when no runner exists yet. *)
Definition compile (documents : list Document) : M Chain :=
  let* b := get_self in
  let prompt_template :=
    mkPromptTemplate (prompt b) ["attribute_collection"] (parser b) in
  let* rn :=
    match runner b with
    | Some rn => ret rn
    | None =>
        let* vs :=
          from_documents (vectorstore_class b) documents (embedding_model b) in
        let r := as_retriever vs in
        let rn := RunnableParallel r in
        do set_self (set_pipeline b vs r rn) then
        ret rn
    end in
  ret (mkChain rn prompt_template (model b) (parser b)).

(** [validate_question]: any exception inside the [try] gives [False]; the
    class is resolved from [self.question_type] again, and a result that is
    not a mapping cannot be unpacked into keyword arguments. *)
Definition validate_question (b : QuizBuilder) (result : value) : bool :=
  match get_parser_for_question_type (question_type b) with
  | Raised _ => false
  | Returned (CustomParser _) => false
  | Returned (JsonOutputParser schema) =>
      match result with
      | VDict kwargs => pydantic_init env schema kwargs
      | _ => false
      end
  end.

(** The input of every invocation. *)
Definition chain_input (b : QuizBuilder) : string :=
  String.append "Topic: "
    (String.append (topic b)
       (String.append ", Lang: "
          (String.append (lang b)
             (String.append ", Question type: " (question_type b))))).

(** The body of the [while] loop up to, and without, [attempts += 1]. *)
Definition attempt (chain : Chain) (generated_questions : list value)
    : M (list value) :=
  let* b := get_self in
  let* response := invoke chain (chain_input b) in
  match discard_model_config response with
  | Raised e => raise e
  | Returned response =>
      if validate_question b response
      then ret (generated_questions ++ [response])%list
      else ret generated_questions
  end.

(** The loop condition. *)
Definition loop_guard (generated_questions : list value)
    (num_questions attempts max_attempts : Z) : bool :=
  (Z.of_nat (length generated_questions) <? num_questions)
  && (attempts <? max_attempts).

Definition inspect {A} (a : A) : {b : A | a = b} := exist _ a eq_refl.

Equations? while_loop (chain : Chain) (num_questions max_attempts : Z)
    (generated_questions : list value) (attempts : Z) (st : State)
    : outcome (list value) * State
    by wf (Z.to_nat (max_attempts - attempts)) lt :=
  while_loop chain num_questions max_attempts generated_questions attempts st
    with inspect (loop_guard generated_questions num_questions attempts
                    max_attempts) => {
    | exist _ true _ with attempt chain generated_questions st => {
        | (Returned generated_questions', st') =>
            while_loop chain num_questions max_attempts generated_questions'
              (attempts + 1) st'
        | (Raised e, st') => (Raised e, st') }
    | exist _ false _ => (Returned generated_questions, st) }.
Proof.
  unfold loop_guard in *.
  apply andb_true_iff in e as [_ e]. apply Z.ltb_lt in e. lia.
Qed.

(** [create_questions] *)
Definition create_questions (documents : list Document) (num_questions : Z)
    : M value :=
  if 10 <? num_questions
  then ret (VDict (<["message" := VStr "error"]>
                     (<["data" := VStr "Number of questions cannot exceed 10"]>
                        ∅)))
  else
    let* chain := compile documents in
    let* generated_questions :=
      while_loop chain num_questions (num_questions * 5) [] 0 in
    let* b := get_self in
    do match vectorstore b with
       | None =>
           raise (AttributeError
                    "'NoneType' object has no attribute 'delete_collection'")
       | Some vs => delete_collection vs
       end then
    ret (VList (py_slice_to generated_questions num_questions)).

End Run.

(** ** What a reply does to an attempt *)

(** The candidate a reply yields once normalised, when no stage raises. *)
Definition candidate (r : ChainReply) : option value :=
  match r with
  | Json v =>
      match discard_model_config v with
      | Returned v' => Some v'
      | Raised _ => None
      end
  | StageRaises _ | MalformedJson _ => None
  end.

(** The reply parses and normalises, and the candidate fails validation. *)
Definition rejected (env : Env) (b : QuizBuilder) (r : ChainReply) : bool :=
  match candidate r with
  | Some v' => negb (validate_question env b v')
  | None => false
  end.

(** The reply parses and normalises, and the candidate passes validation. *)
Definition accepted (env : Env) (b : QuizBuilder) (r : ChainReply) : bool :=
  match candidate r with
  | Some v' => validate_question env b v'
  | None => false
  end.

(** The dictionary returned for a count above ten. *)
Definition too_many_questions : value :=
  VDict (<["message" := VStr "error"]>
           (<["data" := VStr "Number of questions cannot exceed 10"]> ∅)).

(** ** A reference instance of the environment

    Model construction following pydantic (v1) on decoded JSON: every
    annotated field must be present and its value accepted for the
    annotation; unknown keys are ignored.  [str] takes strings and numbers
    (booleans are integers), [bool] takes booleans, the numbers 0 and 1 and
    the usual yes/no words, a list annotation takes a list whose elements
    are accepted, a nested class takes a dictionary.  The coercion
    [dict(value)] that pydantic tries on a non-dictionary given for a
    nested class is left out: such a value is rejected; so are its
    treatment of a key named [__pydantic_self__] and of a value given for
    [model_config].  The instance serves the examples only, on inputs where
    none of this arises. *)

Definition ascii_lower (c : ascii) : ascii :=
  let n := nat_of_ascii c in
  if (65 <=? n)%nat && (n <=? 90)%nat then ascii_of_nat (n + 32) else c.

Fixpoint str_lower (s : string) : string :=
  match s with
  | EmptyString => EmptyString
  | String c s' => String (ascii_lower c) (str_lower s')
  end.

Definition BOOL_FALSE : list string := ["0"; "off"; "f"; "false"; "n"; "no"].
Definition BOOL_TRUE : list string := ["1"; "on"; "t"; "true"; "y"; "yes"].

Definition str_validator (v : value) : bool :=
  match v with
  | VStr _ | VInt _ | VFloat _ | VBool _ => true
  | VNone | VList _ | VDict _ => false
  end.

Definition bool_validator (v : value) : bool :=
  match v with
  | VBool _ => true
  | VInt z => (z =? 0) || (z =? 1)
  | VFloat f => PrimFloat.eqb f 0%float || PrimFloat.eqb f 1%float
  | VStr s =>
      existsb (String.eqb (str_lower s)) BOOL_TRUE
      || existsb (String.eqb (str_lower s)) BOOL_FALSE
  | VNone | VList _ | VDict _ => false
  end.

Fixpoint field_accepts (t : FieldType) (v : value) {struct t} : bool :=
  match t with
  | TStr => str_validator v
  | TBool => bool_validator v
  | TList elem =>
      match v with
      | VList l => forallb (field_accepts elem) l
      | _ => false
      end
  | TModel _ fields =>
      match v with
      | VDict d =>
          (fix all_fields (fs : list (string * FieldType)) : bool :=
             match fs with
             | [] => true
             | (k, t') :: fs' =>
                 match d !! k with
                 | Some x => field_accepts t' x
                 | None => false
                 end && all_fields fs'
             end) fields
      | _ => false
      end
  end.

Definition attr_accepts (kwargs : gmap string value) (a : string) : bool :=
  match kwargs !! a with
  | None | Some (VDict _) => true
  | Some _ => false
  end.

Definition pydantic_v1 (schema : Schema) (kwargs : gmap string value) : bool :=
  field_accepts (TModel (schema_name schema) (schema_fields schema))
    (VDict kwargs)
  && forallb (attr_accepts kwargs) (schema_attrs schema).

(** An environment whose providers always answer, scripted by the replies
    of the chain. *)
Definition mock_env (replies : nat -> ChainReply) : Env :=
  mkEnv (fun name => Returned (mkLLM name))
        (fun name => Returned (mkEmbeddings name))
        (fun _ => Returned "Context: {context} {format_instructions}")
        (fun _ _ _ => None)
        replies
        pydantic_v1.

Definition some_documents : list Document :=
  [mkDocument "Paris is the capital of France." "paris.pdf"].

Definition choice (key val : string) : value :=
  VDict (<["key" := VStr key]> (<["value" := VStr val]> ∅)).

(** The multiple-choice example of the interface. *)
Definition capital_of_france : gmap string value :=
  <["question" := VStr "What is the capital of France?"]>
    (<["choices" := VList [choice "A" "Berlin"; choice "B" "Madrid";
                           choice "C" "Paris"; choice "D" "Rome"]]>
       (<["answer" := VStr "C"]>
          (<["explanation" := VStr "Paris is the capital of France."]> ∅))).

(** A fill-in-the-blank object with five blanks. *)
Definition five_blanks : gmap string value :=
  <["question" := VStr "The {0} of France is {1}, known for {2}, {3} {4}."]>
    (<["blanks" := VList [choice "0" "capital"; choice "1" "Paris";
                          choice "2" "art"; choice "3" "culinary";
                          choice "4" "delights"]]>
       (<["word_bank" := VList [VStr "delights"; VStr "art"; VStr "Paris";
                                VStr "culinary"; VStr "capital"]]>
          (<["explanation" := VStr "Paris is the capital of France."]> ∅))).

(** An object that lacks every required field but [question]. *)
Definition only_a_question : gmap string value :=
  <["question" := VStr "What is the capital of France?"]> ∅.

(** Builders as the router makes them: no override, [verbose=True]. *)
Definition builder_for (env : Env) (question_type : string)
    : outcome QuizBuilder :=
  __init__ env (Some "Paris") question_type "en" (Some Chroma)
    None None None None true.

Definition multiple_choice_builder : QuizBuilder :=
  mkQuizBuilder "multiple_choice" "Context: {context} {format_instructions}"
    (mkLLM "gemini-1.5-pro") (JsonOutputParser MultipleChoiceQuestion)
    (mkEmbeddings "models/embedding-001") Chroma None None None
    "Paris" "en" true.

Definition fill_in_the_blank_builder : QuizBuilder :=
  mkQuizBuilder "fill_in_the_blank" "Context: {context} {format_instructions}"
    (mkLLM "gemini-1.5-pro") (JsonOutputParser FillInTheBlankQuestion)
    (mkEmbeddings "models/embedding-001") Chroma None None None
    "Paris" "en" true.

(** Scripts of replies. *)
Definition always_raises : nat -> ChainReply :=
  fun _ => StageRaises (ProviderError "429 Resource has been exhausted").

Definition always_incomplete : nat -> ChainReply :=
  fun _ => Json (VDict only_a_question).

Definition malformed_then_valid : nat -> ChainReply :=
  fun k => if (k <? 4)%nat then MalformedJson "Sure! Here is your question:"
           else Json (VDict five_blanks).

Definition always_prose : nat -> ChainReply :=
  fun _ => MalformedJson "I cannot produce a question from this document.".

Definition incomplete_then_valid : nat -> ChainReply :=
  fun k => if (k <? 4)%nat then Json (VDict only_a_question)
           else Json (VDict five_blanks).

(** ** States and chains reached by [compile] and [delete_collection] *)

(** The vector store [compile] builds from state [st]. *)
Definition new_vectorstore (documents : list Document) (st : State)
    : Vectorstore :=
  mkVectorstore (collections st) (vectorstore_class (self st)) documents
    (embedding_model (self st)).

(** The state after a successful first [compile]. *)
Definition compiled (documents : list Document) (st : State) : State :=
  let vs := new_vectorstore documents st in
  mkState
    (set_pipeline (self st) vs (as_retriever vs)
       (RunnableParallel (as_retriever vs)))
    (chain_calls st) (S (collections st))
    (events st ++ [EvFromDocuments documents])%list.

(** The chain a first [compile] returns. *)
Definition compiled_chain (documents : list Document) (st : State) : Chain :=
  mkChain (RunnableParallel (as_retriever (new_vectorstore documents st)))
    (mkPromptTemplate (prompt (self st)) ["attribute_collection"]
       (parser (self st)))
    (model (self st)) (parser (self st)).

(** The state after [k] more invocations on the fixed input. *)
Definition after_attempts (k : nat) (st : State) : State :=
  mkState (self st) (chain_calls st + k) (collections st)
    (events st ++ repeat (EvInvoke (chain_input (self st))) k)%list.

(** The state after the collection [c] has been deleted. *)
Definition released (c : nat) (st : State) : State :=
  mkState (self st) (chain_calls st) (collections st)
    (events st ++ [EvDeleteCollection c])%list.

(** The attempt budget as a number of invocations. *)
Definition budget (num_questions : Z) : nat := Z.to_nat (num_questions * 5).

(** ** Replies, read as a sequence *)

(** The exception a reply makes [invoke], or the normalisation that follows
    it, raise. *)
Definition raised_by (r : ChainReply) : option exn :=
  match r with
  | StageRaises e => Some e
  | MalformedJson text => Some (OutputParserException text)
  | Json v =>
      match discard_model_config v with
      | Returned _ => None
      | Raised e => Some e
      end
  end.

(** The candidate of a reply when it passes validation. *)
Definition accepted_candidate (env : Env) (b : QuizBuilder) (r : ChainReply)
    : option value :=
  match candidate r with
  | Some v' => if validate_question env b v' then Some v' else None
  | None => None
  end.

(** The accepted candidates of a sequence of replies, in order. *)
Fixpoint accepted_candidates (env : Env) (b : QuizBuilder)
    (rs : list ChainReply) : list value :=
  match rs with
  | [] => []
  | r :: rs' =>
      match accepted_candidate env b r with
      | Some v' => v' :: accepted_candidates env b rs'
      | None => accepted_candidates env b rs'
      end
  end.

(** The replies to the invocations number [k], ..., [k + len - 1]. *)
Definition replies_from (env : Env) (k len : nat) : list ChainReply :=
  map (chain_reply env) (seq k len).

(** ** The request handler (router.py) *)

Module schemas.

(** [QuizzifyArgs] *)
Record QuizzifyArgs : Type := mkQuizzifyArgs {
  topic : string;
  n_questions : Z;
  file_url : string;
  file_type : string;
  lang : option string;
  question_type : string
}.

End schemas.

(** What [get_docs] does: it returns the chunks, raises [LoaderError], or
    raises something else. *)
Inductive LoadResult : Type :=
| Loaded (docs : list Document)
| LoaderError (message : string)
| LoadRaises (e : exn).

(** The collaborators of the handler: the document loader, and the text
    [str(e)] of the exceptions that libraries raise. *)
Record Handler : Type := mkHandler {
  get_docs : string -> string -> bool -> LoadResult;
  library_str : exn -> string
}.

(** [str(e)]: an exception made from one message is that message. *)
Definition py_str (h : Handler) (e : exn) : string :=
  match e with
  | ValueError msg | TypeError msg | AttributeError msg => msg
  | OSError _ | OutputParserException _ | ProviderError _ => library_str h e
  end.

(** How the handler ends: with a response, or with one of the two
    exceptions it raises. *)
Inductive Reply : Type :=
| Responds (output : value)
| RaisesToolExecutorError (message : string)
| Raises (e : exn).

(** [lang] reaches the builder as it is; the builder only ever formats it
    into the input of the chain, where [None] reads "None". *)
Definition lang_text (lang : option string) : string :=
  match lang with Some l => l | None => "None" end.

(** [raise ValueError(f"Error in executor: {e}")] *)
Definition executor_error (h : Handler) (e : exn) : Reply :=
  Raises (ValueError (String.append "Error in executor: " (py_str h e))).

(** [submit_tool]: load the documents, make a builder with the defaults and
    [verbose=True], create the questions.  The builder is a new object: the
    run starts from the calls made so far with the new builder as [self]. *)
Definition submit_tool (env : Env) (h : Handler)
    (data : schemas.QuizzifyArgs) (st : State) : Reply * State :=
  match get_docs h (schemas.file_url data) (schemas.file_type data) true with
  | LoaderError message => (RaisesToolExecutorError message, st)
  | LoadRaises e => (executor_error h e, st)
  | Loaded docs =>
      match __init__ env (Some (schemas.topic data))
              (schemas.question_type data) (lang_text (schemas.lang data))
              (Some Chroma) None None None None true with
      | Raised e => (executor_error h e, st)
      | Returned b =>
          match create_questions env docs (schemas.n_questions data)
                  (mkState b (chain_calls st) (collections st) (events st))
          with
          | (Returned output, st') => (Responds output, st')
          | (Raised e, st') => (executor_error h e, st')
          end
      end
  end.

(** A handler whose loader always returns [some_documents]. *)
Definition mock_handler : Handler :=
  mkHandler (fun _ _ _ => Loaded some_documents) (fun _ => "library error").

Definition paris_request (n : Z) (question_type : string)
    : schemas.QuizzifyArgs :=
  schemas.mkQuizzifyArgs "Paris" n "https://example.org/paris.pdf" "pdf"
    (Some "en") question_type.

(** The configuration of a builder: the attributes [__init__] sets and no
    method assigns afterwards. *)
Definition config (b : QuizBuilder)
    : string * string * LLM * OutputParser * Embeddings * VectorstoreClass
      * string * string * bool :=
  (question_type b, prompt b, model b, parser b, embedding_model b,
   vectorstore_class b, topic b, lang b, verbose b).

(** * Properties *)

(** ** The registry *)

Lemma dict_get_None {A} (d : list (string * A)) (k : string) :
  ~ In k (map fst d) -> dict_get d k = None.
Proof.
  induction d as [|[k' a] d IH]; simpl; intros Hk; [reflexivity|].
  destruct (String.eqb_spec k' k) as [->|Hne].
  - exfalso. apply Hk. left. reflexivity.
  - apply IH. intros Hin. apply Hk. right. exact Hin.
Qed.

Lemma dict_get_Some {A} (d : list (string * A)) (k : string) (a : A) :
  dict_get d k = Some a -> In k (map fst d).
Proof.
  induction d as [|[k' a'] d IH]; simpl; [discriminate|].
  destruct (String.eqb_spec k' k) as [->|Hne]; intros H.
  - left. reflexivity.
  - right. apply IH. exact H.
Qed.

Lemma schema_mapping_keys :
  map fst schema_mapping = (documented_types ++ ["default"])%list.
Proof. reflexivity. Qed.

Lemma get_parser_unknown (question_type : string) :
  ~ In question_type (map fst schema_mapping) ->
  get_parser_for_question_type question_type =
  Raised (ValueError
            (String.append "Unsupported question type: " question_type)).
Proof.
  intros Hk. unfold get_parser_for_question_type.
  rewrite (dict_get_None _ _ Hk). reflexivity.
Qed.

(** ** Normalisation *)

Lemma discard_model_config_dict (d : gmap string value) :
  discard_model_config (VDict d) = Returned (VDict (delete "model_config" d)).
Proof.
  simpl. case_bool_decide as Hd; [reflexivity|].
  rewrite delete_id; [reflexivity|].
  destruct (d !! "model_config") eqn:E; [|reflexivity].
  exfalso. apply Hd. eauto.
Qed.

(** ** Counting calls *)

Lemma filter_repeat_invoke (p : event -> bool) (input : string) (k : nat) :
  p (EvInvoke input) = false ->
  List.filter p (repeat (EvInvoke input) k) = [].
Proof.
  intros Hp. induction k as [|k IH]; simpl; [reflexivity|].
  rewrite Hp. exact IH.
Qed.

Section Properties.

Variable env : Env.

(** ** One attempt *)

Lemma attempt_eq chain gq st :
  attempt env chain gq st =
  match chain_reply env (chain_calls st) with
  | StageRaises e => (Raised e, invoked (chain_input (self st)) st)
  | MalformedJson text =>
      (Raised (OutputParserException text), invoked (chain_input (self st)) st)
  | Json v =>
      match discard_model_config v with
      | Raised e => (Raised e, invoked (chain_input (self st)) st)
      | Returned v' =>
          (Returned (if validate_question env (self st) v'
                     then (gq ++ [v'])%list else gq),
           invoked (chain_input (self st)) st)
      end
  end.
Proof.
  unfold attempt, bind, get_self, invoke, raise, ret.
  destruct (chain_reply env (chain_calls st)) as [e|text|v]; try reflexivity.
  destruct (discard_model_config v) as [v'|e]; [|reflexivity].
  destruct (validate_question env (self st) v'); reflexivity.
Qed.

Lemma attempt_candidate chain gq st v' :
  candidate (chain_reply env (chain_calls st)) = Some v' ->
  attempt env chain gq st =
  (Returned (if validate_question env (self st) v'
             then (gq ++ [v'])%list else gq),
   invoked (chain_input (self st)) st).
Proof.
  intros Hc. rewrite attempt_eq. unfold candidate in Hc.
  destruct (chain_reply env (chain_calls st)) as [e|text|v]; try discriminate.
  destruct (discard_model_config v) as [w|e]; [|discriminate].
  injection Hc as ->. reflexivity.
Qed.

Lemma attempt_no_candidate chain gq st :
  candidate (chain_reply env (chain_calls st)) = None ->
  exists e, attempt env chain gq st =
            (Raised e, invoked (chain_input (self st)) st).
Proof.
  intros Hc. rewrite attempt_eq. unfold candidate in Hc.
  destruct (chain_reply env (chain_calls st)) as [e|text|v]; eauto.
  destruct (discard_model_config v) as [w|e]; [discriminate|eauto].
Qed.

(** ** The loop *)

(** The loop, unfolded once. *)
Lemma while_loop_eq chain n mx gq a st :
  while_loop env chain n mx gq a st =
  if loop_guard gq n a mx then
    match attempt env chain gq st with
    | (Returned gq', st') => while_loop env chain n mx gq' (a + 1) st'
    | (Raised e, st') => (Raised e, st')
    end
  else (Returned gq, st).
Proof.
  rewrite while_loop_equation_1. unfold inspect.
  enough (forall (g : bool) (H : loop_guard gq n a mx = g),
    while_loop_unfold_clause_1 env chain n mx gq a (exist _ g H) st =
    if g then
      match attempt env chain gq st with
      | (Returned gq', st') => while_loop env chain n mx gq' (a + 1) st'
      | (Raised e, st') => (Raised e, st')
      end
    else (Returned gq, st)) as E by apply E.
  intros [] H; simpl; [|reflexivity].
  destruct (attempt env chain gq st) as [[gq'|e] st']; simpl.
  - rewrite while_loop_unfold_eq. reflexivity.
  - reflexivity.
Qed.

Lemma loop_guard_true gq n a mx :
  loop_guard gq n a mx = true <-> Z.of_nat (length gq) < n /\ a < mx.
Proof.
  unfold loop_guard. rewrite andb_true_iff, !Z.ltb_lt. reflexivity.
Qed.

Lemma loop_guard_false gq n a mx :
  loop_guard gq n a mx = false <-> n <= Z.of_nat (length gq) \/ mx <= a.
Proof.
  unfold loop_guard. rewrite andb_false_iff, !Z.ltb_ge. reflexivity.
Qed.

(** A rejected candidate costs one attempt and leaves the results alone. *)
Lemma while_loop_reject chain n mx gq a st :
  loop_guard gq n a mx = true ->
  rejected env (self st) (chain_reply env (chain_calls st)) = true ->
  while_loop env chain n mx gq a st =
  while_loop env chain n mx gq (a + 1) (invoked (chain_input (self st)) st).
Proof.
  intros Hg Hr. rewrite while_loop_eq, Hg. unfold rejected in Hr.
  destruct (candidate (chain_reply env (chain_calls st))) as [v'|] eqn:Hc;
    [|discriminate].
  rewrite (attempt_candidate _ _ _ _ Hc).
  apply negb_true_iff in Hr. rewrite Hr. reflexivity.
Qed.

(** An accepted candidate is appended. *)
Lemma while_loop_accept chain n mx gq a st v' :
  loop_guard gq n a mx = true ->
  candidate (chain_reply env (chain_calls st)) = Some v' ->
  validate_question env (self st) v' = true ->
  while_loop env chain n mx gq a st =
  while_loop env chain n mx (gq ++ [v'])%list (a + 1)
    (invoked (chain_input (self st)) st).
Proof.
  intros Hg Hc Hv. rewrite while_loop_eq, Hg.
  rewrite (attempt_candidate _ _ _ _ Hc), Hv. reflexivity.
Qed.

(** A stage that raises ends the loop with its exception. *)
Lemma while_loop_raise chain n mx gq a st :
  loop_guard gq n a mx = true ->
  candidate (chain_reply env (chain_calls st)) = None ->
  exists e, while_loop env chain n mx gq a st =
            (Raised e, invoked (chain_input (self st)) st).
Proof.
  intros Hg Hc. rewrite while_loop_eq, Hg.
  destruct (attempt_no_candidate chain gq st Hc) as [e ->]. eauto.
Qed.

Lemma after_attempts_0 st : after_attempts 0 st = st.
Proof.
  destruct st as [b c k ev]. unfold after_attempts; simpl.
  rewrite Nat.add_0_r, app_nil_r. reflexivity.
Qed.

Lemma after_attempts_S k st :
  after_attempts k (invoked (chain_input (self st)) st) =
  after_attempts (S k) st.
Proof.
  unfold after_attempts, invoked; simpl.
  rewrite <- app_assoc. simpl. f_equal. lia.
Qed.

(** What every run of the loop satisfies: the builder and the collections
    are left alone, at most [mx - a] invocations are made, each on the fixed
    input, and when the loop returns, the results extend the initial ones
    with accepted candidates, stay within the target, and fall short of it
    only once the budget is spent. *)
Lemma while_loop_inv chain n mx (fuel : nat) :
  forall gq a st r st',
    Z.to_nat (mx - a) = fuel ->
    while_loop env chain n mx gq a st = (r, st') ->
    exists k : nat,
      (k <= fuel)%nat /\ st' = after_attempts k st /\
      forall gq', r = Returned gq' ->
        (exists new, gq' = (gq ++ new)%list /\
           Forall (fun q => validate_question env (self st) q = true) new) /\
        (length gq' <= Nat.max (length gq) (Z.to_nat n))%nat /\
        (Z.of_nat (length gq') < n -> k = fuel).
Proof.
  induction fuel as [|fuel IH]; intros gq a st r st' Hf Hrun;
    rewrite while_loop_eq in Hrun;
    destruct (loop_guard gq n a mx) eqn:Hg.
  - apply loop_guard_true in Hg. lia.
  - injection Hrun as <- <-. exists 0%nat.
    rewrite after_attempts_0. split; [lia|split; [reflexivity|]].
    intros gq' [= <-]. repeat split.
    + exists []. rewrite app_nil_r. split; [reflexivity|constructor].
    + lia.
  - apply loop_guard_true in Hg as [Hlen Ha].
    rewrite attempt_eq in Hrun.
    destruct (chain_reply env (chain_calls st)) as [e|text|v].
    + injection Hrun as <- <-. exists 1%nat. rewrite <- after_attempts_S.
      rewrite after_attempts_0. split; [lia|split; [reflexivity|discriminate]].
    + injection Hrun as <- <-. exists 1%nat. rewrite <- after_attempts_S.
      rewrite after_attempts_0. split; [lia|split; [reflexivity|discriminate]].
    + destruct (discard_model_config v) as [v'|e].
      * apply IH in Hrun; [|lia].
        destruct Hrun as (k & Hk & -> & Hres).
        exists (S k). rewrite after_attempts_S. split; [lia|split; [reflexivity|]].
        intros gq' Hr. destruct (Hres gq' Hr) as ((new & Hnew & Hall) & Hle & Hsh).
        simpl in Hall.
        destruct (validate_question env (self st) v') eqn:Hv.
        -- repeat split.
           ++ exists (v' :: new). rewrite Hnew, <- app_assoc. split; [reflexivity|].
              constructor; assumption.
           ++ rewrite length_app in Hle. simpl in Hle. lia.
           ++ intros Hs. rewrite (Hsh Hs). reflexivity.
        -- repeat split.
           ++ exists new. split; assumption.
           ++ exact Hle.
           ++ intros Hs. rewrite (Hsh Hs). reflexivity.
      * injection Hrun as <- <-. exists 1%nat. rewrite <- after_attempts_S.
        rewrite after_attempts_0. split; [lia|split; [reflexivity|discriminate]].
  - injection Hrun as <- <-. exists 0%nat.
    rewrite after_attempts_0. split; [lia|split; [reflexivity|]].
    intros gq' [= <-]. repeat split.
    + exists []. rewrite app_nil_r. split; [reflexivity|constructor].
    + lia.
    + intros Hs. apply loop_guard_false in Hg. lia.
Qed.

(** When no invocation within the budget raises, the loop returns. *)
Lemma while_loop_returns chain n mx (fuel : nat) :
  forall gq a st,
    Z.to_nat (mx - a) = fuel ->
    (forall j, (j < fuel)%nat ->
       candidate (chain_reply env (chain_calls st + j)) <> None) ->
    exists gq' st', while_loop env chain n mx gq a st = (Returned gq', st').
Proof.
  induction fuel as [|fuel IH]; intros gq a st Hf Hok;
    rewrite while_loop_eq; destruct (loop_guard gq n a mx) eqn:Hg; eauto.
  - apply loop_guard_true in Hg. lia.
  - apply loop_guard_true in Hg as [Hlen Ha].
    destruct (candidate (chain_reply env (chain_calls st))) as [v'|] eqn:Hc.
    + rewrite (attempt_candidate _ _ _ _ Hc). apply IH; [lia|].
      intros j Hj. unfold invoked; cbn [chain_calls].
      replace (S (chain_calls st) + j)%nat
        with (chain_calls st + S j)%nat by lia.
      apply Hok. lia.
    + exfalso. apply (Hok 0%nat); [lia|]. rewrite Nat.add_0_r. exact Hc.
Qed.

(** When every invocation within the budget is rejected, the whole budget
    is spent and nothing is collected. *)
Lemma while_loop_all_rejected chain n mx (fuel : nat) :
  forall gq a st,
    Z.to_nat (mx - a) = fuel ->
    Z.of_nat (length gq) < n ->
    (forall j, (j < fuel)%nat ->
       rejected env (self st) (chain_reply env (chain_calls st + j)) = true) ->
    while_loop env chain n mx gq a st = (Returned gq, after_attempts fuel st).
Proof.
  induction fuel as [|fuel IH]; intros gq a st Hf Hlen Hrej.
  - rewrite while_loop_eq.
    destruct (loop_guard gq n a mx) eqn:Hg.
    + apply loop_guard_true in Hg. lia.
    + rewrite after_attempts_0. reflexivity.
  - rewrite while_loop_reject.
    + rewrite <- after_attempts_S. apply IH; [lia|exact Hlen|].
      intros j Hj. unfold invoked; cbn [chain_calls self].
      replace (S (chain_calls st) + j)%nat
        with (chain_calls st + S j)%nat by lia.
      apply Hrej. lia.
    + apply loop_guard_true. lia.
    + specialize (Hrej 0%nat). rewrite Nat.add_0_r in Hrej. apply Hrej. lia.
Qed.

(** ** compile *)

Lemma compile_first documents st :
  runner (self st) = None ->
  from_documents_error env (vectorstore_class (self st)) documents
    (embedding_model (self st)) = None ->
  compile env documents st =
  (Returned (compiled_chain documents st), compiled documents st).
Proof.
  intros Hr Hb. unfold compile, bind, get_self, from_documents, bind, log.
  rewrite Hr; simpl. rewrite Hb. reflexivity.
Qed.

Lemma compile_first_fails documents st e :
  runner (self st) = None ->
  from_documents_error env (vectorstore_class (self st)) documents
    (embedding_model (self st)) = Some e ->
  compile env documents st =
  (Raised e,
   mkState (self st) (chain_calls st) (collections st)
     (events st ++ [EvFromDocuments documents])%list).
Proof.
  intros Hr Hb. unfold compile, bind, get_self, from_documents, bind, log.
  rewrite Hr; simpl. rewrite Hb. reflexivity.
Qed.

(** ** create_questions *)

(** [create_questions], with the monad unfolded. *)
Lemma create_questions_eq documents n st :
  create_questions env documents n st =
  if 10 <? n then (Returned too_many_questions, st)
  else
    match compile env documents st with
    | (Raised e, st1) => (Raised e, st1)
    | (Returned chain, st1) =>
        match while_loop env chain n (n * 5) [] 0 st1 with
        | (Raised e, st2) => (Raised e, st2)
        | (Returned gq, st2) =>
            match vectorstore (self st2) with
            | None =>
                (Raised
                   (AttributeError
                      "'NoneType' object has no attribute 'delete_collection'"),
                 st2)
            | Some vs =>
                (Returned (VList (py_slice_to gq n)),
                 released (collection vs) st2)
            end
        end
    end.
Proof.
  unfold create_questions. destruct (10 <? n); [reflexivity|].
  unfold bind at 1. destruct (compile env documents st) as [[chain|e] st1];
    [|reflexivity].
  unfold bind at 1.
  destruct (while_loop env chain n (n * 5) [] 0 st1) as [[gq|e] st2];
    [|reflexivity].
  unfold bind, get_self, delete_collection, raise, log, ret.
  destruct (vectorstore (self st2)); reflexivity.
Qed.

(** A call that passes the count check on a builder without a runner, with
    a vector store that builds: the loop runs on the compiled state and the
    collection is deleted when the loop returns. *)
Lemma create_questions_first documents n st :
  n <= 10 ->
  runner (self st) = None ->
  from_documents_error env (vectorstore_class (self st)) documents
    (embedding_model (self st)) = None ->
  create_questions env documents n st =
  match while_loop env (compiled_chain documents st) n (n * 5) [] 0
          (compiled documents st) with
  | (Returned gq, st2) =>
      (Returned (VList (py_slice_to gq n)), released (collections st) st2)
  | (Raised e, st2) => (Raised e, st2)
  end.
Proof.
  intros Hn Hr Hb. rewrite create_questions_eq.
  destruct (10 <? n) eqn:Hc; [apply Z.ltb_lt in Hc; lia|].
  rewrite (compile_first _ _ Hr Hb).
  destruct (while_loop env (compiled_chain documents st) n (n * 5) [] 0
              (compiled documents st)) as [[gq|e] st2] eqn:Hrun;
    [|reflexivity].
  destruct (while_loop_inv _ _ _ _ _ _ _ _ _ eq_refl Hrun) as (k & _ & -> & _).
  reflexivity.
Qed.

Lemma py_slice_to_length {A} (l : list A) (n : Z) :
  (length l <= Z.to_nat n)%nat -> py_slice_to l n = l.
Proof.
  intros Hl. unfold py_slice_to. destruct (0 <=? n) eqn:Hn.
  - apply firstn_all2. exact Hl.
  - apply Z.leb_gt in Hn. assert (length l = 0%nat) as Hz by lia.
    destruct l; [|discriminate]. destruct (Z.to_nat _); reflexivity.
Qed.

Lemma compile_cases documents st :
  (exists e st1, compile env documents st = (Raised e, st1) /\
                 chain_calls st1 = chain_calls st) \/
  (exists chain st1, compile env documents st = (Returned chain, st1) /\
                     question_type (self st1) = question_type (self st) /\
                     chain_calls st1 = chain_calls st).
Proof.
  destruct (runner (self st)) as [rn|] eqn:Hr.
  - right. unfold compile, bind, get_self. rewrite Hr. simpl. eauto.
  - destruct (from_documents_error env (vectorstore_class (self st)) documents
                (embedding_model (self st))) as [e|] eqn:Hb.
    + left. rewrite (compile_first_fails _ _ _ Hr Hb). eauto.
    + right. rewrite (compile_first _ _ Hr Hb). eauto.
Qed.

(** A call that passes the count check and returns has run the loop, from
    a state with the same question type, and returns what the loop
    collected, sliced. *)
Lemma create_questions_returned documents n st r st' :
  n <= 10 ->
  create_questions env documents n st = (Returned r, st') ->
  exists chain st1 gq st2,
    question_type (self st1) = question_type (self st) /\
    while_loop env chain n (n * 5) [] 0 st1 = (Returned gq, st2) /\
    r = VList (py_slice_to gq n).
Proof.
  intros Hn. rewrite create_questions_eq.
  destruct (10 <? n) eqn:Hc; [apply Z.ltb_lt in Hc; lia|].
  destruct (compile_cases documents st)
    as [(e & st1 & -> & Hk)|(chain & st1 & -> & Hq & Hk)]; [discriminate|].
  destruct (while_loop env chain n (n * 5) [] 0 st1) as [[gq|e] st2] eqn:Hrun;
    [|discriminate].
  destruct (vectorstore (self st2)) as [vs|]; [|discriminate].
  intros [= <- <-]. exists chain, st1, gq, st2. auto.
Qed.

(** No call invokes the chain more often than the budget allows. *)
Lemma create_questions_calls documents n st :
  (chain_calls (snd (create_questions env documents n st))
   <= chain_calls st + budget n)%nat.
Proof.
  rewrite create_questions_eq.
  destruct (10 <? n); [simpl; lia|].
  destruct (compile_cases documents st)
    as [(e & st1 & -> & Hk)|(chain & st1 & -> & Hq & Hk)]; [simpl; lia|].
  destruct (while_loop env chain n (n * 5) [] 0 st1) as [r st2] eqn:Hrun.
  destruct (while_loop_inv _ _ _ _ _ _ _ _ _ eq_refl Hrun) as (k & Hle & -> & _).
  assert (k <= budget n)%nat as Hb.
  { unfold budget. replace (n * 5) with (n * 5 - 0) by lia. exact Hle. }
  destruct r as [gq|e]; [|simpl; lia].
  destruct (vectorstore (self (after_attempts k st1))); simpl; lia.
Qed.

Lemma validate_question_true b q :
  validate_question env b q = true ->
  exists schema kwargs,
    dict_get schema_mapping (question_type b) = Some schema /\
    q = VDict kwargs /\ pydantic_init env schema kwargs = true.
Proof.
  unfold validate_question, get_parser_for_question_type.
  destruct (dict_get schema_mapping (question_type b)) as [schema|];
    [|discriminate].
  destruct q; try discriminate. eauto.
Qed.

Lemma validate_question_same_type b b' q :
  question_type b' = question_type b ->
  validate_question env b' q = validate_question env b q.
Proof. intros H. unfold validate_question. rewrite H. reflexivity. Qed.


End Properties.

(** ** The reference environment *)

Lemma builder_for_multiple_choice replies :
  builder_for (mock_env replies) "multiple_choice" =
  Returned multiple_choice_builder.
Proof. reflexivity. Qed.

Lemma builder_for_fill_in_the_blank replies :
  builder_for (mock_env replies) "fill_in_the_blank" =
  Returned fill_in_the_blank_builder.
Proof. reflexivity. Qed.

(** A required field that is missing makes construction fail. *)
Lemma pydantic_v1_missing_field schema kwargs k t :
  In (k, t) (schema_fields schema) ->
  kwargs !! k = None ->
  pydantic_v1 schema kwargs = false.
Proof.
  intros Hin Hk. unfold pydantic_v1. apply andb_false_iff. left.
  simpl. induction (schema_fields schema) as [|[k' t'] fs IH]; [contradiction|].
  destruct Hin as [[= -> ->]|Hin].
  - rewrite Hk. reflexivity.
  - rewrite (IH Hin). apply andb_false_r.
Qed.

Example capital_of_france_valid :
  pydantic_v1 MultipleChoiceQuestion capital_of_france = true.
Proof. vm_compute. reflexivity. Qed.

Example five_blanks_valid :
  pydantic_v1 FillInTheBlankQuestion five_blanks = true.
Proof. vm_compute. reflexivity. Qed.

Example only_a_question_invalid :
  pydantic_v1 FillInTheBlankQuestion only_a_question = false.
Proof. vm_compute. reflexivity. Qed.

(** The first scenario of the interface: one multiple-choice question, the
    model answers with the example on the first attempt. *)
Example one_attempt_one_question :
  create_questions (mock_env (fun _ => Json (VDict capital_of_france)))
    some_documents 1 (fresh_state multiple_choice_builder) =
  (Returned (VList [VDict capital_of_france]),
   released 0 (after_attempts 1
                 (compiled some_documents
                    (fresh_state multiple_choice_builder)))).
Proof. vm_compute. reflexivity. Qed.

(** * The claims *)

(** ** C1 *)

(** C1, as stated, fails: with one question requested and a chain that
    raises on its first invocation, the vector store is built, the
    exception leaves [create_questions] and [delete_collection] is never
    called. *)
Lemma c1_release_skipped_when_attempt_raises :
  let run := create_questions (mock_env always_raises) some_documents 1
               (fresh_state multiple_choice_builder) in
  fst run = Raised (ProviderError "429 Resource has been exhausted") /\
  events (snd run) =
    [EvFromDocuments some_documents;
     EvInvoke "Topic: Paris, Lang: en, Question type: multiple_choice"] /\
  count_events is_build (events (snd run)) = 1%nat /\
  count_events is_delete (events (snd run)) = 0%nat.
Proof. vm_compute. repeat split. Qed.

(** C1, amended: when a call to [create_questions] with at most ten
    questions on a builder without a runner returns (full or partial
    success), the calls it made are: one [from_documents], then the
    invocations of the chain, then one [delete_collection], on the
    collection that was built.  The release happens exactly once, after the
    last attempt. *)
Theorem c1_release_once_on_return (env : Env) (documents : list Document)
    (n : Z) (st : State) (r : value) (st' : State) :
  n <= 10 ->
  runner (self st) = None ->
  create_questions env documents n st = (Returned r, st') ->
  exists (k : nat) (added : list event),
    events st' = (events st ++ added)%list /\
    added = (EvFromDocuments documents
             :: repeat (EvInvoke (chain_input (self st))) k
             ++ [EvDeleteCollection (collections st)])%list /\
    count_events is_build added = 1%nat /\
    count_events is_delete added = 1%nat.
Proof.
  intros Hn Hr Hrun.
  destruct (from_documents_error env (vectorstore_class (self st)) documents
              (embedding_model (self st))) as [e|] eqn:Hb.
  - rewrite create_questions_eq in Hrun.
    destruct (10 <? n) eqn:Hc; [apply Z.ltb_lt in Hc; lia|].
    rewrite (compile_first_fails _ _ _ _ Hr Hb) in Hrun. discriminate.
  - rewrite (create_questions_first _ _ _ _ Hn Hr Hb) in Hrun.
    destruct (while_loop env (compiled_chain documents st) n (n * 5) [] 0
                (compiled documents st)) as [[gq|e] st2] eqn:Hloop;
      [|discriminate].
    injection Hrun as _ <-.
    destruct (while_loop_inv _ _ _ _ _ _ _ _ _ _ eq_refl Hloop)
      as (k & _ & -> & _).
    exists k, (EvFromDocuments documents
               :: repeat (EvInvoke (chain_input (self st))) k
               ++ [EvDeleteCollection (collections st)])%list.
    split; [|split; [reflexivity|]].
    + unfold released, after_attempts, compiled; simpl.
      rewrite <- !app_assoc. reflexivity.
    + unfold count_events; simpl.
      rewrite !List.filter_app, !length_app; simpl.
      rewrite !filter_repeat_invoke by reflexivity. split; reflexivity.
Qed.

Lemma c1_release_once_on_return_witness :
  exists (k : nat) (added : list event),
    events (snd (create_questions (mock_env incomplete_then_valid)
                   some_documents 1 (fresh_state fill_in_the_blank_builder)))
    = (events (fresh_state fill_in_the_blank_builder) ++ added)%list /\
    added = (EvFromDocuments some_documents
             :: repeat (EvInvoke
                          (chain_input
                             (self (fresh_state fill_in_the_blank_builder)))) k
             ++ [EvDeleteCollection
                   (collections (fresh_state fill_in_the_blank_builder))])%list /\
    count_events is_build added = 1%nat /\
    count_events is_delete added = 1%nat.
Proof.
  apply (c1_release_once_on_return (mock_env incomplete_then_valid)
           some_documents 1 (fresh_state fill_in_the_blank_builder)
           (VList [VDict (delete "model_config" five_blanks)])).
  - lia.
  - reflexivity.
  - vm_compute. reflexivity.
Defined.

(** ** C2 *)




(** ** C3 *)

(** C3, as stated, fails: ["default"] is not one of the six documented
    types, and it resolves, to the multiple-choice class. *)
Lemma c3_default_resolves :
  ~ In "default" documented_types /\
  get_parser_for_question_type "default" =
  Returned (JsonOutputParser MultipleChoiceQuestion).
Proof.
  split; [|reflexivity].
  simpl. intros H. repeat destruct H as [H|H]; try discriminate H. exact H.
Qed.

(** C3, amended: every question type that is neither one of the six
    documented types nor the literal ["default"] fails to resolve, with a
    [ValueError] that names the type; an unknown type is never mapped to a
    class. *)
Theorem c3_unknown_type_rejected (question_type : string) :
  ~ In question_type documented_types ->
  question_type <> "default" ->
  get_parser_for_question_type question_type =
  Raised (ValueError
            (String.append "Unsupported question type: " question_type)).
Proof.
  intros Hdoc Hdef. apply get_parser_unknown.
  rewrite schema_mapping_keys, in_app_iff. intros [H|[H|[]]].
  - exact (Hdoc H).
  - exact (Hdef (eq_sym H)).
Qed.

Lemma c3_unknown_type_rejected_witness :
  get_parser_for_question_type "essay" =
  Raised (ValueError "Unsupported question type: essay").
Proof.
  apply (c3_unknown_type_rejected "essay").
  - simpl. intros H. repeat destruct H as [H|H]; try discriminate H. exact H.
  - discriminate.
Defined.

(** ** C4 *)

(** C4: a count above ten is answered with the error dictionary, and the
    state is left as it was: no vector store is built, the chain is not
    invoked, nothing is generated. *)
Theorem c4_count_above_ten_rejected (env : Env) (documents : list Document)
    (n : Z) (st : State) :
  10 < n ->
  create_questions env documents n st = (Returned too_many_questions, st).
Proof.
  intros Hn. rewrite create_questions_eq.
  apply Z.ltb_lt in Hn. rewrite Hn. reflexivity.
Qed.

Lemma c4_count_above_ten_rejected_witness :
  create_questions (mock_env always_raises) some_documents 11
    (fresh_state multiple_choice_builder) =
  (Returned too_many_questions, fresh_state multiple_choice_builder).
Proof.
  apply (c4_count_above_ten_rejected (mock_env always_raises) some_documents
           11 (fresh_state multiple_choice_builder)).
  lia.
Defined.

(** ** C5 *)

(** C5, as stated, fails in its second half: a model whose output is
    always invalid because it is not JSON at all does not exhaust the
    budget.  With three questions requested, none of its replies would be
    accepted, yet the call raises on the first invocation, fourteen short
    of the cap of fifteen. *)
Lemma c5_unparsable_output_stops_before_cap :
  let env := mock_env always_prose in
  let run := create_questions env some_documents 3
               (fresh_state fill_in_the_blank_builder) in
  (forall k, accepted env fill_in_the_blank_builder (always_prose k) = false) /\
  Z.to_nat (5 * 3) = 15%nat /\
  chain_calls (snd run) = 1%nat /\
  fst run =
  Raised (OutputParserException
            "I cannot produce a question from this document.").
Proof. split; [intros k; reflexivity|]. vm_compute. repeat split. Qed.

(** C5, amended: [create_questions] is a total function (the loop is
    defined by well-founded recursion on [max_attempts - attempts]), and
    whatever the replies, it invokes the chain at most [5 * num_questions]
    times; when the count is at most ten, the vector store builds and every
    reply within the budget is rejected, that is parses and normalises but
    fails validation, it invokes the chain exactly that many times. *)
Theorem c5_attempts_bounded (env : Env) (documents : list Document)
    (n : Z) (st : State) :
  (chain_calls (snd (create_questions env documents n st))
   <= chain_calls st + Z.to_nat (5 * n))%nat /\
  (n <= 10 ->
   runner (self st) = None ->
   from_documents_error env (vectorstore_class (self st)) documents
     (embedding_model (self st)) = None ->
   (forall j, (j < Z.to_nat (5 * n))%nat ->
      rejected env (self st) (chain_reply env (chain_calls st + j)) = true) ->
   chain_calls (snd (create_questions env documents n st))
   = (chain_calls st + Z.to_nat (5 * n))%nat).
Proof.
  replace (5 * n) with (n * 5) by lia. split.
  - apply create_questions_calls.
  - intros Hn Hr Hb Hrej.
    rewrite (create_questions_first env documents n st Hn Hr Hb).
    destruct (Z_lt_le_dec 0 n) as [Hpos|Hneg].
    + rewrite (while_loop_all_rejected env _ n (n * 5) (Z.to_nat (n * 5)));
        [reflexivity| f_equal; lia | simpl; lia | exact Hrej].
    + rewrite while_loop_eq.
      replace (loop_guard [] n 0 (n * 5)) with false
        by (symmetry; apply loop_guard_false; simpl; lia).
      simpl. replace (Z.to_nat (n * 5)) with 0%nat by lia. lia.
Qed.

Lemma c5_attempts_bounded_witness :
  chain_calls (snd (create_questions (mock_env always_incomplete)
                      some_documents 3
                      (fresh_state fill_in_the_blank_builder)))
  = (chain_calls (fresh_state fill_in_the_blank_builder)
     + Z.to_nat (5 * 3))%nat.
Proof.
  apply (c5_attempts_bounded (mock_env always_incomplete) some_documents 3
           (fresh_state fill_in_the_blank_builder)).
  - lia.
  - reflexivity.
  - reflexivity.
  - intros j _. vm_compute. reflexivity.
Defined.

(** ** C6 *)

(** C6: when a call with a count of at most ten returns, it returns a list
    of at most [num_questions] items, and each item is a dictionary from
    which the class selected by the builder's question type can be
    constructed. *)
Theorem c6_results_bounded_and_valid (env : Env) (documents : list Document)
    (n : Z) (st : State) (r : value) (st' : State) :
  n <= 10 ->
  create_questions env documents n st = (Returned r, st') ->
  exists qs : list value,
    r = VList qs /\
    (length qs <= Z.to_nat n)%nat /\
    Forall (fun q =>
              validate_question env (self st) q = true /\
              exists schema kwargs,
                dict_get schema_mapping (question_type (self st)) = Some schema /\
                q = VDict kwargs /\
                pydantic_init env schema kwargs = true) qs.
Proof.
  intros Hn Hrun.
  destruct (create_questions_returned env documents n st r st' Hn Hrun)
    as (chain & st1 & gq & st2 & Hq & Hloop & ->).
  destruct (while_loop_inv env _ _ _ _ _ _ _ _ _ eq_refl Hloop)
    as (k & _ & _ & Hres).
  destruct (Hres gq eq_refl) as ((new & Hnew & Hall) & Hlen & _).
  simpl in Hnew, Hlen. subst new.
  rewrite py_slice_to_length by lia.
  exists gq. split; [reflexivity|]. split; [lia|].
  eapply Forall_impl; [exact Hall|]. intros q Hq'. simpl in Hq'.
  rewrite (validate_question_same_type env _ _ q Hq) in Hq'.
  split; [exact Hq'|]. apply (validate_question_true env). exact Hq'.
Qed.

Lemma c6_results_bounded_and_valid_witness :
  exists qs : list value,
    VList [VDict five_blanks] = VList qs /\
    (length qs <= Z.to_nat 1)%nat /\
    Forall (fun q =>
              validate_question (mock_env incomplete_then_valid)
                (self (fresh_state fill_in_the_blank_builder)) q = true /\
              exists schema kwargs,
                dict_get schema_mapping
                  (question_type (self (fresh_state fill_in_the_blank_builder)))
                = Some schema /\
                q = VDict kwargs /\
                pydantic_init (mock_env incomplete_then_valid) schema kwargs
                = true) qs.
Proof.
  apply (c6_results_bounded_and_valid (mock_env incomplete_then_valid)
           some_documents 1 (fresh_state fill_in_the_blank_builder)
           (VList [VDict five_blanks])
           (snd (create_questions (mock_env incomplete_then_valid)
                   some_documents 1 (fresh_state fill_in_the_blank_builder)))).
  - lia.
  - vm_compute. reflexivity.
Defined.

(** ** C7 *)

(** C7: when the count is at most ten, the vector store builds and no
    invocation within the budget raises, [create_questions] returns, as a
    list, exactly what the loop collected; a list shorter than requested
    means the whole budget was spent; and when every reply within the
    budget is rejected, the list is empty and exactly [5 * num_questions]
    invocations were made. *)
Theorem c7_partial_results_returned (env : Env) (documents : list Document)
    (n : Z) (st : State) :
  n <= 10 ->
  runner (self st) = None ->
  from_documents_error env (vectorstore_class (self st)) documents
    (embedding_model (self st)) = None ->
  (forall j, (j < Z.to_nat (5 * n))%nat ->
     candidate (chain_reply env (chain_calls st + j)) <> None) ->
  exists (qs : list value) (st' : State),
    create_questions env documents n st = (Returned (VList qs), st') /\
    fst (while_loop env (compiled_chain documents st) n (n * 5) [] 0
           (compiled documents st)) = Returned qs /\
    (Z.of_nat (length qs) < n ->
     chain_calls st' = (chain_calls st + Z.to_nat (5 * n))%nat) /\
    ((forall j, (j < Z.to_nat (5 * n))%nat ->
        rejected env (self st) (chain_reply env (chain_calls st + j)) = true) ->
     qs = [] /\ chain_calls st' = (chain_calls st + Z.to_nat (5 * n))%nat).
Proof.
  replace (5 * n) with (n * 5) by lia. intros Hn Hr Hb Hok.
  rewrite (create_questions_first env documents n st Hn Hr Hb).
  destruct (while_loop_returns env (compiled_chain documents st) n (n * 5)
              (Z.to_nat (n * 5)) [] 0 (compiled documents st))
    as (gq & st2 & Hloop); [f_equal; lia|exact Hok|].
  rewrite Hloop.
  destruct (while_loop_inv env _ _ _ _ _ _ _ _ _ eq_refl Hloop)
    as (k & _ & -> & Hres).
  destruct (Hres gq eq_refl) as (_ & Hlen & Hshort). simpl in Hlen.
  rewrite py_slice_to_length by lia.
  exists gq. eexists. split; [reflexivity|]. split; [reflexivity|]. split.
  - intros Hs. rewrite (Hshort Hs). simpl. f_equal. f_equal. lia.
  - intros Hrej. destruct (Z_lt_le_dec 0 n) as [Hpos|Hneg].
    + rewrite (while_loop_all_rejected env _ n (n * 5) (Z.to_nat (n * 5)))
        in Hloop; [| f_equal; lia | simpl; lia | exact Hrej].
      pose proof (f_equal (fun p => chain_calls (snd p)) Hloop) as Hst.
      apply (f_equal fst) in Hloop. simpl in Hloop, Hst.
      injection Hloop as <-. split; [reflexivity|]. simpl. lia.
    + rewrite while_loop_eq in Hloop.
      replace (loop_guard [] n 0 (n * 5)) with false in Hloop
        by (symmetry; apply loop_guard_false; simpl; lia).
      pose proof (f_equal (fun p => chain_calls (snd p)) Hloop) as Hst.
      apply (f_equal fst) in Hloop. simpl in Hloop, Hst.
      injection Hloop as <-. split; [reflexivity|]. simpl. lia.
Qed.

Lemma c7_partial_results_returned_witness :
  exists (qs : list value) (st' : State),
    create_questions (mock_env always_incomplete) some_documents 3
      (fresh_state fill_in_the_blank_builder) = (Returned (VList qs), st') /\
    fst (while_loop (mock_env always_incomplete)
           (compiled_chain some_documents
              (fresh_state fill_in_the_blank_builder)) 3 (3 * 5) [] 0
           (compiled some_documents (fresh_state fill_in_the_blank_builder)))
    = Returned qs /\
    (Z.of_nat (length qs) < 3 ->
     chain_calls st' =
     (chain_calls (fresh_state fill_in_the_blank_builder)
      + Z.to_nat (5 * 3))%nat) /\
    ((forall j, (j < Z.to_nat (5 * 3))%nat ->
        rejected (mock_env always_incomplete)
          (self (fresh_state fill_in_the_blank_builder))
          (chain_reply (mock_env always_incomplete)
             (chain_calls (fresh_state fill_in_the_blank_builder) + j))
        = true) ->
     qs = [] /\
     chain_calls st' =
     (chain_calls (fresh_state fill_in_the_blank_builder)
      + Z.to_nat (5 * 3))%nat).
Proof.
  apply (c7_partial_results_returned (mock_env always_incomplete)
           some_documents 3 (fresh_state fill_in_the_blank_builder)).
  - lia.
  - reflexivity.
  - reflexivity.
  - intros j _. vm_compute. discriminate.
Defined.

(** The scenario of C7, run: three questions requested, every reply lacks
    required fields; the empty list comes back after fifteen invocations
    and the collection is released. *)
Example three_requested_none_valid :
  create_questions (mock_env always_incomplete) some_documents 3
    (fresh_state fill_in_the_blank_builder) =
  (Returned (VList []),
   released 0 (after_attempts 15
                 (compiled some_documents
                    (fresh_state fill_in_the_blank_builder)))).
Proof. vm_compute. reflexivity. Qed.

(** ** C8 *)

(** C8: on a dictionary reply, normalisation deletes the key
    ["model_config"] and nothing else, and the attempt validates, and on
    success appends, the dictionary so normalised. *)
Theorem c8_model_config_stripped (env : Env) (chain : Chain)
    (gq : list value) (st : State) (d : gmap string value) :
  chain_reply env (chain_calls st) = Json (VDict d) ->
  exists d' : gmap string value,
    discard_model_config (VDict d) = Returned (VDict d') /\
    d' !! "model_config" = None /\
    (forall k : string, k <> "model_config" -> d' !! k = d !! k) /\
    attempt env chain gq st =
    (Returned (if validate_question env (self st) (VDict d')
               then (gq ++ [VDict d'])%list else gq),
     invoked (chain_input (self st)) st).
Proof.
  intros Hreply. exists (delete "model_config" d).
  split; [apply discard_model_config_dict|].
  split; [apply lookup_delete_eq|].
  split.
  - intros k Hk. apply lookup_delete_ne. congruence.
  - apply attempt_candidate. rewrite Hreply. unfold candidate.
    rewrite discard_model_config_dict. reflexivity.
Qed.

Lemma c8_model_config_stripped_witness :
  exists d' : gmap string value,
    discard_model_config
      (VDict (<["model_config" := VDict ∅]> capital_of_france))
    = Returned (VDict d') /\
    d' !! "model_config" = None /\
    (forall k : string, k <> "model_config" ->
       d' !! k = (<["model_config" := VDict ∅]> capital_of_france) !! k) /\
    attempt
      (mock_env (fun _ => Json (VDict (<["model_config" := VDict ∅]>
                                         capital_of_france))))
      (compiled_chain some_documents (fresh_state multiple_choice_builder))
      [] (fresh_state multiple_choice_builder) =
    (Returned
       (if validate_question
             (mock_env (fun _ => Json (VDict (<["model_config" := VDict ∅]>
                                                capital_of_france))))
             (self (fresh_state multiple_choice_builder)) (VDict d')
        then ([] ++ [VDict d'])%list else []),
     invoked (chain_input (self (fresh_state multiple_choice_builder)))
       (fresh_state multiple_choice_builder)).
Proof.
  apply (c8_model_config_stripped
           (mock_env (fun _ => Json (VDict (<["model_config" := VDict ∅]>
                                              capital_of_france))))
           (compiled_chain some_documents
              (fresh_state multiple_choice_builder))
           [] (fresh_state multiple_choice_builder)
           (<["model_config" := VDict ∅]> capital_of_france)).
  reflexivity.
Defined.

(** ** C9 *)

(** C9: when the question type is not a key of the mapping, the constructor
    raises whatever the overrides are, a parser override included; when the
    two default clients can be constructed, what it raises is the
    [ValueError] of the registry. *)
Theorem c9_init_rejects_unsupported_type (env : Env) (topic : option string)
    (question_type lang : string)
    (vectorstore_class : option VectorstoreClass) (prompt : option string)
    (embedding_model : option Embeddings) (model : option LLM)
    (parser : option OutputParser) (verbose : bool) :
  dict_get schema_mapping question_type = None ->
  exists e : exn,
    __init__ env topic question_type lang vectorstore_class prompt
      embedding_model model parser verbose = Raised e /\
    (is_returned (new_GoogleGenerativeAI env "gemini-1.5-pro") = true ->
     is_returned
       (new_GoogleGenerativeAIEmbeddings env "models/embedding-001") = true ->
     e = ValueError
           (String.append "Unsupported question type: " question_type)).
Proof.
  intros Hget. unfold __init__, and_then, get_parser_for_question_type.
  rewrite Hget.
  destruct (new_GoogleGenerativeAI env "gemini-1.5-pro") as [m|e1].
  - destruct (new_GoogleGenerativeAIEmbeddings env "models/embedding-001")
      as [em|e2].
    + eexists. split; [reflexivity|]. reflexivity.
    + exists e2. split; [reflexivity|]. discriminate.
  - exists e1. split; [reflexivity|]. discriminate.
Qed.

Lemma c9_init_rejects_unsupported_type_witness :
  exists e : exn,
    __init__ (mock_env always_raises) (Some "Paris") "essay" "en"
      (Some Chroma) None None None
      (Some (JsonOutputParser MultipleChoiceQuestion)) true = Raised e /\
    (is_returned
       (new_GoogleGenerativeAI (mock_env always_raises) "gemini-1.5-pro")
     = true ->
     is_returned
       (new_GoogleGenerativeAIEmbeddings (mock_env always_raises)
          "models/embedding-001") = true ->
     e = ValueError (String.append "Unsupported question type: " "essay")).
Proof.
  apply (c9_init_rejects_unsupported_type (mock_env always_raises)
           (Some "Paris") "essay" "en" (Some Chroma) None None None
           (Some (JsonOutputParser MultipleChoiceQuestion)) true).
  reflexivity.
Defined.

(** ** C10 *)

(** C10: with a count of zero or less, on a builder without a runner and
    with a vector store that builds, [create_questions] returns the empty
    list without invoking the chain; the calls it makes are one
    [from_documents] and one [delete_collection], in this order. *)
Theorem c10_nonpositive_count (env : Env) (documents : list Document)
    (n : Z) (st : State) :
  n <= 0 ->
  runner (self st) = None ->
  from_documents_error env (vectorstore_class (self st)) documents
    (embedding_model (self st)) = None ->
  exists st' : State,
    create_questions env documents n st = (Returned (VList []), st') /\
    chain_calls st' = chain_calls st /\
    events st' =
      (events st ++ [EvFromDocuments documents;
                     EvDeleteCollection (collections st)])%list.
Proof.
  intros Hn Hr Hb.
  rewrite (create_questions_first env documents n st) by (lia || assumption).
  rewrite while_loop_eq.
  replace (loop_guard [] n 0 (n * 5)) with false
    by (symmetry; apply loop_guard_false; simpl; lia).
  rewrite py_slice_to_length by (simpl; lia).
  eexists. split; [reflexivity|]. split; [reflexivity|].
  simpl. rewrite <- app_assoc. reflexivity.
Qed.

Lemma c10_nonpositive_count_witness :
  exists st' : State,
    create_questions (mock_env always_incomplete) some_documents (-2)
      (fresh_state fill_in_the_blank_builder) = (Returned (VList []), st') /\
    chain_calls st' = chain_calls (fresh_state fill_in_the_blank_builder) /\
    events st' =
      (events (fresh_state fill_in_the_blank_builder)
       ++ [EvFromDocuments some_documents;
           EvDeleteCollection
             (collections (fresh_state fill_in_the_blank_builder))])%list.
Proof.
  apply (c10_nonpositive_count (mock_env always_incomplete) some_documents
           (-2) (fresh_state fill_in_the_blank_builder)).
  - lia.
  - reflexivity.
  - reflexivity.
Defined.

(** * Further properties *)

(** ** Replies *)

Lemma candidate_raised_by (r : ChainReply) :
  candidate r = None <-> raised_by r <> None.
Proof.
  destruct r as [e|text|v]; simpl; try (split; congruence).
  destruct (discard_model_config v); split; congruence.
Qed.

Lemma replies_from_S (env : Env) (k len : nat) :
  replies_from env k (S len) = chain_reply env k :: replies_from env (S k) len.
Proof. reflexivity. Qed.

Lemma replies_from_snoc (env : Env) (k len : nat) :
  replies_from env k (S len) =
  (replies_from env k len ++ [chain_reply env (k + len)])%list.
Proof.
  unfold replies_from. rewrite seq_S, map_app. reflexivity.
Qed.

Lemma accepted_candidates_length (env : Env) (b : QuizBuilder)
    (rs : list ChainReply) :
  (length (accepted_candidates env b rs) <= length rs)%nat.
Proof.
  induction rs as [|r rs IH]; simpl; [lia|].
  destruct (accepted_candidate env b r); simpl; lia.
Qed.

Lemma accepted_candidates_Forall (env : Env) (b : QuizBuilder)
    (P : value -> Prop) (rs : list ChainReply) :
  (forall r v', accepted_candidate env b r = Some v' -> P v') ->
  Forall P (accepted_candidates env b rs).
Proof.
  intros HP. induction rs as [|r rs IH]; simpl; [constructor|].
  destruct (accepted_candidate env b r) as [v'|] eqn:Hr; [|exact IH].
  constructor; [exact (HP r v' Hr)|exact IH].
Qed.

Lemma discard_model_config_no_key (v : value) (d : gmap string value) :
  discard_model_config v = Returned (VDict d) -> d !! "model_config" = None.
Proof.
  destruct v as [| | | | s | l | d0]; simpl; try discriminate.
  - destruct (str_contains "model_config" s); discriminate.
  - destruct (existsb is_model_config l); discriminate.
  - case_bool_decide as Hd; intros [= <-].
    + apply lookup_delete_eq.
    + destruct (d0 !! "model_config") eqn:E; [|reflexivity].
      exfalso. apply Hd. eauto.
Qed.

Section Traces.

Variable env : Env.

(** What a run of the loop consumed and produced: it made [k] invocations
    within the budget; when it returns, the first [k] replies all yielded a
    candidate and the results are the initial ones followed by the accepted
    candidates, in order; when it raises, the last of the [k] replies is the
    first one that raises, and the exception is that reply's. *)
Lemma while_loop_trace chain n mx (fuel : nat) :
  forall gq a st r st',
    Z.to_nat (mx - a) = fuel ->
    while_loop env chain n mx gq a st = (r, st') ->
    exists k : nat,
      (k <= fuel)%nat /\ st' = after_attempts k st /\
      match r with
      | Returned gq' =>
          gq' = (gq ++ accepted_candidates env (self st)
                         (replies_from env (chain_calls st) k))%list /\
          (forall j, (j < k)%nat ->
             candidate (chain_reply env (chain_calls st + j)) <> None)
      | Raised e =>
          exists k', k = S k' /\
            raised_by (chain_reply env (chain_calls st + k')) = Some e /\
            (forall j, (j < k')%nat ->
               candidate (chain_reply env (chain_calls st + j)) <> None)
      end.
Proof.
  induction fuel as [|fuel IH]; intros gq a st r st' Hf Hrun;
    rewrite while_loop_eq in Hrun;
    destruct (loop_guard gq n a mx) eqn:Hg.
  - apply loop_guard_true in Hg. lia.
  - injection Hrun as <- <-. exists 0%nat. rewrite after_attempts_0.
    split; [lia|]. split; [reflexivity|]. split.
    + simpl. rewrite app_nil_r. reflexivity.
    + intros j Hj. lia.
  - apply loop_guard_true in Hg as [Hlen Ha].
    assert (forall e, raised_by (chain_reply env (chain_calls st)) = Some e ->
              (Raised e, invoked (chain_input (self st)) st) = (r, st') ->
              exists k : nat,
                (k <= S fuel)%nat /\ st' = after_attempts k st /\
                match r with
                | Returned gq' =>
                    gq' = (gq ++ accepted_candidates env (self st)
                                   (replies_from env (chain_calls st) k))%list /\
                    (forall j, (j < k)%nat ->
                       candidate (chain_reply env (chain_calls st + j)) <> None)
                | Raised e =>
                    exists k', k = S k' /\
                      raised_by (chain_reply env (chain_calls st + k')) = Some e /\
                      (forall j, (j < k')%nat ->
                         candidate (chain_reply env (chain_calls st + j)) <> None)
                end) as Hraise.
    { intros e He [= <- <-]. exists 1%nat.
      rewrite <- after_attempts_S, after_attempts_0.
      split; [lia|]. split; [reflexivity|].
      exists 0%nat. rewrite Nat.add_0_r.
      split; [reflexivity|]. split; [exact He|]. intros j Hj. lia. }
    rewrite attempt_eq in Hrun.
    destruct (chain_reply env (chain_calls st)) as [e|text|v] eqn:Hreply;
      try (apply (Hraise _ eq_refl Hrun)).
    destruct (discard_model_config v) as [v'|e] eqn:Hd.
    + apply IH in Hrun; [|lia].
      destruct Hrun as (k & Hk & -> & Hres).
      exists (S k). rewrite after_attempts_S.
      split; [lia|]. split; [reflexivity|].
      unfold invoked in Hres; cbn [chain_calls self] in Hres.
      assert (forall j, (j < k)%nat ->
                candidate (chain_reply env (S (chain_calls st) + j)) <> None ->
                candidate (chain_reply env (chain_calls st + S j)) <> None)
        as Hshift.
      { intros j _. replace (chain_calls st + S j)%nat
          with (S (chain_calls st) + j)%nat by lia. trivial. }
      assert (candidate (chain_reply env (chain_calls st)) = Some v') as Hc.
      { rewrite Hreply. simpl. rewrite Hd. reflexivity. }
      destruct r as [gq'|e].
      * destruct Hres as (-> & Hok). split.
        -- rewrite replies_from_S. simpl.
           unfold accepted_candidate at 1. rewrite Hc.
           destruct (validate_question env (self st) v').
           ++ rewrite <- app_assoc. reflexivity.
           ++ reflexivity.
        -- intros [|j] Hj.
           ++ rewrite Nat.add_0_r, Hc. discriminate.
           ++ apply Hshift; [lia|]. apply Hok. lia.
      * destruct Hres as (k' & -> & He & Hok).
        exists (S k'). split; [reflexivity|]. split.
        -- replace (chain_calls st + S k')%nat
             with (S (chain_calls st) + k')%nat by lia. exact He.
        -- intros [|j] Hj.
           ++ rewrite Nat.add_0_r, Hc. discriminate.
           ++ apply Hshift; [lia|]. apply Hok. lia.
    + apply (Hraise e); [|exact Hrun]. simpl. rewrite Hd. reflexivity.
  - injection Hrun as <- <-. exists 0%nat. rewrite after_attempts_0.
    split; [lia|]. split; [reflexivity|]. split.
    + simpl. rewrite app_nil_r. reflexivity.
    + intros j Hj. lia.
Qed.

End Traces.

Lemma accepted_candidates_app (env : Env) (b : QuizBuilder)
    (rs rs' : list ChainReply) :
  accepted_candidates env b (rs ++ rs') =
  (accepted_candidates env b rs ++ accepted_candidates env b rs')%list.
Proof.
  induction rs as [|r rs IH]; simpl; [reflexivity|].
  destruct (accepted_candidate env b r); simpl; rewrite IH; reflexivity.
Qed.

Lemma replies_from_split (env : Env) (k len len' : nat) :
  replies_from env k (len + len') =
  (replies_from env k len ++ replies_from env (k + len) len')%list.
Proof.
  unfold replies_from. rewrite seq_app, map_app. reflexivity.
Qed.

Lemma accepted_candidate_same_type (env : Env) (b b' : QuizBuilder)
    (r : ChainReply) :
  question_type b' = question_type b ->
  accepted_candidate env b' r = accepted_candidate env b r.
Proof.
  intros H. unfold accepted_candidate. destruct (candidate r); [|reflexivity].
  rewrite (validate_question_same_type env b b' v H). reflexivity.
Qed.

Lemma accepted_candidates_same_type (env : Env) (b b' : QuizBuilder)
    (rs : list ChainReply) :
  question_type b' = question_type b ->
  accepted_candidates env b' rs = accepted_candidates env b rs.
Proof.
  intros H. induction rs as [|r rs IH]; simpl; [reflexivity|].
  rewrite (accepted_candidate_same_type env b b' r H), IH. reflexivity.
Qed.

(** An accepted candidate is a dictionary without the key
    ["model_config"], from which the class of the question type
    constructs. *)
Lemma accepted_candidate_dict (env : Env) (b : QuizBuilder) (r : ChainReply)
    (v' : value) :
  accepted_candidate env b r = Some v' ->
  validate_question env b v' = true /\
  exists d, v' = VDict d /\ d !! "model_config" = None.
Proof.
  unfold accepted_candidate.
  destruct (candidate r) as [w|] eqn:Hc; [|discriminate].
  destruct (validate_question env b w) eqn:Hv; [|discriminate].
  intros [= <-]. split; [exact Hv|].
  destruct (validate_question_true env b w Hv) as (schema & d & _ & -> & _).
  exists d. split; [reflexivity|].
  unfold candidate in Hc. destruct r as [e|text|v]; try discriminate.
  destruct (discard_model_config v) as [w|e] eqn:Hd; [|discriminate].
  injection Hc as ->. exact (discard_model_config_no_key v d Hd).
Qed.

Section Calls.

Variable env : Env.

(** A returning call, in full: [compile] returned, the loop returned, a
    vector store was there to release, and the result is the slice of what
    the loop collected. *)
Lemma create_questions_returned_full documents n st r st' :
  n <= 10 ->
  create_questions env documents n st = (Returned r, st') ->
  exists chain st1 gq st2 vs,
    compile env documents st = (Returned chain, st1) /\
    while_loop env chain n (n * 5) [] 0 st1 = (Returned gq, st2) /\
    vectorstore (self st2) = Some vs /\
    st' = released (collection vs) st2 /\
    r = VList gq.
Proof.
  intros Hn. rewrite create_questions_eq.
  destruct (10 <? n) eqn:Hc; [apply Z.ltb_lt in Hc; lia|].
  destruct (compile env documents st) as [[chain|e] st1] eqn:Hcomp;
    [|discriminate].
  destruct (while_loop env chain n (n * 5) [] 0 st1) as [[gq|e] st2] eqn:Hrun;
    [|discriminate].
  destruct (vectorstore (self st2)) as [vs|] eqn:Hvs; [|discriminate].
  intros [= <- <-]. exists chain, st1, gq, st2, vs.
  repeat split; try assumption; try reflexivity.
  destruct (while_loop_inv env _ _ _ _ _ _ _ _ _ eq_refl Hrun)
    as (k & _ & _ & Hres).
  destruct (Hres gq eq_refl) as (_ & Hlen & _). simpl in Hlen.
  rewrite py_slice_to_length by lia. reflexivity.
Qed.

Lemma compile_returned documents st chain st1 :
  compile env documents st = (Returned chain, st1) ->
  question_type (self st1) = question_type (self st) /\
  chain_calls st1 = chain_calls st.
Proof.
  intros Hc.
  destruct (compile_cases env documents st)
    as [(e & s & He & _)|(c & s & He & Hq & Hk)]; rewrite He in Hc.
  - discriminate.
  - injection Hc as <- <-. split; assumption.
Qed.

End Calls.

(** ** What [create_questions] returns *)

(** X1: whenever a call with a count of at most ten returns, the list it
    returns is made of the accepted candidates among the replies within the
    budget, in the order of the replies, cut after the first
    [num_questions] of them. *)
Theorem x1_results_are_first_accepted (env : Env) (documents : list Document)
    (n : Z) (st : State) (r : value) (st' : State) :
  n <= 10 ->
  create_questions env documents n st = (Returned r, st') ->
  r = VList (firstn (Z.to_nat n)
               (accepted_candidates env (self st)
                  (replies_from env (chain_calls st) (Z.to_nat (5 * n))))).
Proof.
  intros Hn Hrun.
  destruct (create_questions_returned_full env documents n st r st' Hn Hrun)
    as (chain & st1 & gq & st2 & vs & Hcomp & Hloop & _ & _ & ->).
  destruct (compile_returned env _ _ _ _ Hcomp) as [Hq Hk].
  destruct (while_loop_inv env _ _ _ _ _ _ _ _ _ eq_refl Hloop)
    as (k & Hle & Hst & Hres).
  destruct (Hres gq eq_refl) as (_ & Hlen & Hshort). simpl in Hlen.
  destruct (while_loop_trace env _ _ _ _ _ _ _ _ _ eq_refl Hloop)
    as (k0 & _ & Hst0 & Hgq & _).
  assert (k0 = k) as ->.
  { rewrite Hst in Hst0. apply (f_equal chain_calls) in Hst0.
    simpl in Hst0. lia. }
  simpl in Hgq. rewrite Hk, (accepted_candidates_same_type env _ _ _ Hq) in Hgq.
  f_equal. replace (Z.to_nat (5 * n)) with (k + (Z.to_nat (n * 5 - 0) - k))%nat
    by lia.
  rewrite replies_from_split, accepted_candidates_app, <- Hgq.
  rewrite firstn_app, firstn_all2 by lia.
  destruct (Z_lt_le_dec (Z.of_nat (length gq)) n) as [Hs|Hfull].
  - rewrite (Hshort Hs), Nat.sub_diag. simpl.
    rewrite firstn_nil, app_nil_r. reflexivity.
  - replace (Z.to_nat n - length gq)%nat with 0%nat by lia.
    simpl. rewrite app_nil_r. reflexivity.
Qed.

Lemma x1_results_are_first_accepted_witness :
  VList [VDict five_blanks] =
  VList (firstn (Z.to_nat 1)
           (accepted_candidates (mock_env incomplete_then_valid)
              (self (fresh_state fill_in_the_blank_builder))
              (replies_from (mock_env incomplete_then_valid)
                 (chain_calls (fresh_state fill_in_the_blank_builder))
                 (Z.to_nat (5 * 1))))).
Proof.
  apply (x1_results_are_first_accepted (mock_env incomplete_then_valid)
           some_documents 1 (fresh_state fill_in_the_blank_builder)
           (VList [VDict five_blanks])
           (snd (create_questions (mock_env incomplete_then_valid)
                   some_documents 1 (fresh_state fill_in_the_blank_builder)))).
  - lia.
  - vm_compute. reflexivity.
Defined.

(** A run of accepted candidates, as long as target and budget allow. *)
Lemma while_loop_accepted_prefix (env : Env) chain n mx (k : nat) :
  forall gq a st,
    Z.of_nat (length gq) + Z.of_nat k <= n ->
    a + Z.of_nat k <= mx ->
    (forall j, (j < k)%nat ->
       accepted env (self st) (chain_reply env (chain_calls st + j)) = true) ->
    while_loop env chain n mx gq a st =
    while_loop env chain n mx
      (gq ++ accepted_candidates env (self st)
               (replies_from env (chain_calls st) k))%list
      (a + Z.of_nat k) (after_attempts k st) /\
    length (accepted_candidates env (self st)
              (replies_from env (chain_calls st) k)) = k.
Proof.
  induction k as [|k IH]; intros gq a st Hlen Ha Hacc.
  - simpl. rewrite after_attempts_0, Z.add_0_r, app_nil_r. split; reflexivity.
  - pose proof (Hacc 0%nat ltac:(lia)) as H0. rewrite Nat.add_0_r in H0.
    unfold accepted in H0.
    destruct (candidate (chain_reply env (chain_calls st))) as [v'|] eqn:Hc;
      [|discriminate].
    assert (accepted_candidate env (self st)
              (chain_reply env (chain_calls st)) = Some v') as Hac
      by (unfold accepted_candidate; rewrite Hc, H0; reflexivity).
    rewrite replies_from_S. simpl. rewrite Hac.
    destruct (IH (gq ++ [v'])%list (a + 1)
                (invoked (chain_input (self st)) st)) as [Hrun Hl].
    + rewrite length_app. simpl. lia.
    + lia.
    + intros j Hj. unfold invoked; cbn [chain_calls self].
      replace (S (chain_calls st) + j)%nat
        with (chain_calls st + S j)%nat by lia.
      apply Hacc. lia.
    + simpl (chain_calls (invoked _ _)) in Hrun, Hl.
      simpl (self (invoked _ _)) in Hrun, Hl.
      split; [|simpl; rewrite Hl; reflexivity].
      rewrite (while_loop_accept env _ _ _ _ _ _ v')
        by (try (apply loop_guard_true; lia); assumption).
      rewrite Hrun, after_attempts_S, <- app_assoc.
      replace (a + 1 + Z.of_nat k) with (a + Z.of_nat (S k)) by lia.
      reflexivity.
Qed.

(** X2: when the first [num_questions] replies are all accepted, the loop
    stops there: exactly [num_questions] invocations are made, not the
    whole budget, and their candidates are returned in order. *)
Theorem x2_stops_at_target (env : Env) (documents : list Document)
    (n : Z) (st : State) :
  0 <= n <= 10 ->
  runner (self st) = None ->
  from_documents_error env (vectorstore_class (self st)) documents
    (embedding_model (self st)) = None ->
  (forall j, (j < Z.to_nat n)%nat ->
     accepted env (self st) (chain_reply env (chain_calls st + j)) = true) ->
  exists st',
    create_questions env documents n st =
    (Returned (VList (accepted_candidates env (self st)
                        (replies_from env (chain_calls st) (Z.to_nat n)))),
     st') /\
    chain_calls st' = (chain_calls st + Z.to_nat n)%nat.
Proof.
  intros [Hn0 Hn] Hr Hb Hacc.
  rewrite (create_questions_first env documents n st Hn Hr Hb).
  destruct (while_loop_accepted_prefix env (compiled_chain documents st) n
              (n * 5) (Z.to_nat n) [] 0 (compiled documents st))
    as [Hrun Hl]; [simpl; lia|lia|exact Hacc|].
  change (chain_calls (compiled documents st)) with (chain_calls st)
    in Hrun, Hl.
  rewrite (accepted_candidates_same_type env (self st)
             (self (compiled documents st))) in Hrun, Hl by reflexivity.
  rewrite Hrun, while_loop_eq.
  match goal with
  | |- context [loop_guard ?g ?x ?y ?z] =>
      replace (loop_guard g x y z) with false
        by (symmetry; apply loop_guard_false; left;
            rewrite length_app, Hl; simpl; lia)
  end.
  rewrite py_slice_to_length by (rewrite length_app, Hl; simpl; lia).
  eexists. split; [reflexivity|]. reflexivity.
Qed.

Lemma x2_stops_at_target_witness :
  exists st',
    create_questions (mock_env (fun _ => Json (VDict capital_of_france)))
      some_documents 2 (fresh_state multiple_choice_builder) =
    (Returned
       (VList (accepted_candidates
                 (mock_env (fun _ => Json (VDict capital_of_france)))
                 (self (fresh_state multiple_choice_builder))
                 (replies_from
                    (mock_env (fun _ => Json (VDict capital_of_france)))
                    (chain_calls (fresh_state multiple_choice_builder))
                    (Z.to_nat 2)))),
     st') /\
    chain_calls st' =
    (chain_calls (fresh_state multiple_choice_builder) + Z.to_nat 2)%nat.
Proof.
  apply (x2_stops_at_target
           (mock_env (fun _ => Json (VDict capital_of_france)))
           some_documents 2 (fresh_state multiple_choice_builder)).
  - lia.
  - reflexivity.
  - reflexivity.
  - intros j _. vm_compute. reflexivity.
Defined.

(** X3: every returned question is a dictionary without the key
    ["model_config"]. *)
Theorem x3_no_model_config_returned (env : Env) (documents : list Document)
    (n : Z) (st : State) (qs : list value) (st' : State) :
  n <= 10 ->
  create_questions env documents n st = (Returned (VList qs), st') ->
  Forall (fun q => exists d : gmap string value,
                     q = VDict d /\ d !! "model_config" = None) qs.
Proof.
  intros Hn Hrun.
  destruct (create_questions_returned_full env documents n st _ st' Hn Hrun)
    as (chain & st1 & gq & st2 & vs & _ & Hloop & _ & _ & Hqs).
  injection Hqs as ->.
  destruct (while_loop_trace env _ _ _ _ _ _ _ _ _ eq_refl Hloop)
    as (k & _ & _ & -> & _).
  simpl. apply accepted_candidates_Forall.
  intros r v' Hr. apply (accepted_candidate_dict env _ r v' Hr).
Qed.

Lemma x3_no_model_config_returned_witness :
  Forall (fun q => exists d : gmap string value,
                     q = VDict d /\ d !! "model_config" = None)
    [VDict capital_of_france].
Proof.
  apply (x3_no_model_config_returned
           (mock_env (fun _ => Json (VDict (<["model_config" := VDict ∅]>
                                              capital_of_france))))
           some_documents 1 (fresh_state multiple_choice_builder)
           [VDict capital_of_france]
           (snd (create_questions
                   (mock_env (fun _ => Json (VDict (<["model_config" := VDict ∅]>
                                                      capital_of_france))))
                   some_documents 1 (fresh_state multiple_choice_builder)))).
  - lia.
  - vm_compute. reflexivity.
Defined.

(** X4: each returned question cost at least one invocation of the chain:
    a returning call made at least as many invocations as it returns
    questions. *)
Theorem x4_one_invocation_per_question (env : Env)
    (documents : list Document) (n : Z) (st : State) (qs : list value)
    (st' : State) :
  n <= 10 ->
  create_questions env documents n st = (Returned (VList qs), st') ->
  (chain_calls st + length qs <= chain_calls st')%nat.
Proof.
  intros Hn Hrun.
  destruct (create_questions_returned_full env documents n st _ st' Hn Hrun)
    as (chain & st1 & gq & st2 & vs & Hcomp & Hloop & _ & -> & Hqs).
  injection Hqs as ->.
  destruct (compile_returned env _ _ _ _ Hcomp) as [_ Hk].
  destruct (while_loop_trace env _ _ _ _ _ _ _ _ _ eq_refl Hloop)
    as (k & _ & -> & -> & _).
  simpl. rewrite Hk.
  pose proof (accepted_candidates_length env (self st1)
                (replies_from env (chain_calls st) k)) as Hlen.
  unfold replies_from in Hlen. rewrite length_map, length_seq in Hlen.
  unfold replies_from. lia.
Qed.

Lemma x4_one_invocation_per_question_witness :
  (chain_calls (fresh_state fill_in_the_blank_builder)
   + length [VDict five_blanks]
   <= chain_calls
        (snd (create_questions (mock_env incomplete_then_valid)
                some_documents 1 (fresh_state fill_in_the_blank_builder))))%nat.
Proof.
  apply (x4_one_invocation_per_question (mock_env incomplete_then_valid)
           some_documents 1 (fresh_state fill_in_the_blank_builder)
           [VDict five_blanks]).
  - lia.
  - vm_compute. reflexivity.
Defined.

(** ** How [create_questions] fails *)

(** X5: when a call that built its vector store raises, the exception is
    the one raised by the first reply within the budget that raises; the
    calls made are one [from_documents] and the invocations up to that
    reply, [delete_collection] is not among them, and the builder still
    holds the vector store. *)
Theorem x5_raising_call_keeps_the_store (env : Env)
    (documents : list Document) (n : Z) (st : State) (e : exn)
    (st' : State) :
  n <= 10 ->
  runner (self st) = None ->
  from_documents_error env (vectorstore_class (self st)) documents
    (embedding_model (self st)) = None ->
  create_questions env documents n st = (Raised e, st') ->
  exists k : nat,
    (S k <= Z.to_nat (5 * n))%nat /\
    raised_by (chain_reply env (chain_calls st + k)) = Some e /\
    (forall j, (j < k)%nat ->
       raised_by (chain_reply env (chain_calls st + j)) = None) /\
    events st' =
      (events st ++ EvFromDocuments documents
                    :: repeat (EvInvoke (chain_input (self st))) (S k))%list /\
    vectorstore (self st') = Some (new_vectorstore documents st).
Proof.
  intros Hn Hr Hb Hrun.
  rewrite (create_questions_first env documents n st Hn Hr Hb) in Hrun.
  destruct (while_loop env (compiled_chain documents st) n (n * 5) [] 0
              (compiled documents st)) as [[gq|e0] st2] eqn:Hloop;
    [discriminate|].
  injection Hrun as -> ->.
  destruct (while_loop_trace env _ _ _ _ _ _ _ _ _ eq_refl Hloop)
    as (k0 & Hle & -> & k & -> & He & Hok).
  exists k. simpl in He, Hok.
  split; [lia|]. split; [exact He|]. split.
  - intros j Hj. specialize (Hok j Hj).
    destruct (raised_by (chain_reply env (chain_calls st + j))) eqn:Hrb;
      [|reflexivity].
    exfalso. apply Hok. apply candidate_raised_by. congruence.
  - split; [|reflexivity].
    unfold after_attempts, compiled; cbn [events self].
    rewrite <- app_assoc. reflexivity.
Qed.

Lemma x5_raising_call_keeps_the_store_witness :
  exists k : nat,
    (S k <= Z.to_nat (5 * 1))%nat /\
    raised_by (chain_reply (mock_env malformed_then_valid)
                 (chain_calls (fresh_state fill_in_the_blank_builder) + k))
    = Some (OutputParserException "Sure! Here is your question:") /\
    (forall j, (j < k)%nat ->
       raised_by (chain_reply (mock_env malformed_then_valid)
                    (chain_calls (fresh_state fill_in_the_blank_builder) + j))
       = None) /\
    events (snd (create_questions (mock_env malformed_then_valid)
                   some_documents 1 (fresh_state fill_in_the_blank_builder)))
    = (events (fresh_state fill_in_the_blank_builder)
       ++ EvFromDocuments some_documents
          :: repeat (EvInvoke
                       (chain_input
                          (self (fresh_state fill_in_the_blank_builder))))
               (S k))%list /\
    vectorstore
      (self (snd (create_questions (mock_env malformed_then_valid)
                    some_documents 1
                    (fresh_state fill_in_the_blank_builder))))
    = Some (new_vectorstore some_documents
              (fresh_state fill_in_the_blank_builder)).
Proof.
  apply (x5_raising_call_keeps_the_store (mock_env malformed_then_valid)
           some_documents 1 (fresh_state fill_in_the_blank_builder)).
  - lia.
  - reflexivity.
  - reflexivity.
  - vm_compute. reflexivity.
Defined.

(** X6: when the vector store cannot be built, [create_questions] raises
    the error of [from_documents] after that one call: the chain is not
    invoked, nothing is released, and the builder is left without a
    pipeline, so that a later call tries to build again. *)
Theorem x6_build_failure (env : Env) (documents : list Document) (n : Z)
    (st : State) (e : exn) :
  n <= 10 ->
  runner (self st) = None ->
  from_documents_error env (vectorstore_class (self st)) documents
    (embedding_model (self st)) = Some e ->
  exists st',
    create_questions env documents n st = (Raised e, st') /\
    self st' = self st /\
    chain_calls st' = chain_calls st /\
    events st' = (events st ++ [EvFromDocuments documents])%list.
Proof.
  intros Hn Hr Hb. rewrite create_questions_eq.
  destruct (10 <? n) eqn:Hc; [apply Z.ltb_lt in Hc; lia|].
  rewrite (compile_first_fails env documents st e Hr Hb).
  eexists. split; [reflexivity|]. repeat split.
Qed.

Lemma x6_build_failure_witness :
  exists st',
    create_questions
      (mkEnv (fun name => Returned (mkLLM name))
             (fun name => Returned (mkEmbeddings name))
             (fun _ => Returned "Context: {context}")
             (fun _ _ _ => Some (ProviderError "embedding failed"))
             always_incomplete pydantic_v1)
      [] 3 (fresh_state multiple_choice_builder)
    = (Raised (ProviderError "embedding failed"), st') /\
    self st' = self (fresh_state multiple_choice_builder) /\
    chain_calls st' = chain_calls (fresh_state multiple_choice_builder) /\
    events st' =
      (events (fresh_state multiple_choice_builder)
       ++ [EvFromDocuments []])%list.
Proof.
  apply (x6_build_failure
           (mkEnv (fun name => Returned (mkLLM name))
                  (fun name => Returned (mkEmbeddings name))
                  (fun _ => Returned "Context: {context}")
                  (fun _ _ _ => Some (ProviderError "embedding failed"))
                  always_incomplete pydantic_v1)
           [] 3 (fresh_state multiple_choice_builder)
           (ProviderError "embedding failed")).
  - lia.
  - reflexivity.
  - reflexivity.
Defined.



(** ** Calling again on the same builder *)

Lemma compile_again (env : Env) documents st rn :
  runner (self st) = Some rn ->
  compile env documents st =
  (Returned (mkChain rn
               (mkPromptTemplate (prompt (self st)) ["attribute_collection"]
                  (parser (self st)))
               (model (self st)) (parser (self st))),
   st).
Proof.
  intros Hr. unfold compile, bind, get_self. rewrite Hr. reflexivity.
Qed.

(** X8: [compile] builds the vector store once per builder.  After a
    [compile] that built it, compiling again, on whatever documents,
    returns the same chain, calls nothing and changes nothing: the new
    documents are not indexed. *)
Theorem x8_compile_builds_once (env : Env) (documents documents' : list Document)
    (st : State) (chain : Chain) (st1 : State) :
  runner (self st) = None ->
  compile env documents st = (Returned chain, st1) ->
  compile env documents' st1 = (Returned chain, st1) /\
  events st1 = (events st ++ [EvFromDocuments documents])%list.
Proof.
  intros Hr Hc.
  destruct (from_documents_error env (vectorstore_class (self st)) documents
              (embedding_model (self st))) as [e|] eqn:Hb.
  - rewrite (compile_first_fails env documents st e Hr Hb) in Hc. discriminate.
  - rewrite (compile_first env documents st Hr Hb) in Hc.
    injection Hc as <- <-. split; [|reflexivity].
    rewrite (compile_again env documents' (compiled documents st)
               (RunnableParallel (as_retriever (new_vectorstore documents st))))
      by reflexivity.
    reflexivity.
Qed.

Lemma x8_compile_builds_once_witness :
  compile (mock_env always_incomplete) []
    (compiled some_documents (fresh_state multiple_choice_builder))
  = (Returned (compiled_chain some_documents
                 (fresh_state multiple_choice_builder)),
     compiled some_documents (fresh_state multiple_choice_builder)) /\
  events (compiled some_documents (fresh_state multiple_choice_builder)) =
  (events (fresh_state multiple_choice_builder)
   ++ [EvFromDocuments some_documents])%list.
Proof.
  apply (x8_compile_builds_once (mock_env always_incomplete) some_documents []
           (fresh_state multiple_choice_builder)).
  - reflexivity.
  - reflexivity.
Defined.

(** X9: a call on a builder that already holds a runner and a vector
    store indexes nothing.  Whatever documents and count it is given, it
    never calls [from_documents]: it makes at most [5 * num_questions]
    invocations, and then nothing more or a [delete_collection] on the
    collection of the store the builder already holds, the one an earlier
    call built and released.  When the count is at most ten and no reply
    within the budget raises, that second release is called. *)
Theorem x9_later_call_builds_nothing (env : Env) (documents : list Document)
    (n : Z) (st : State) (rn : Runner) (vs : Vectorstore) :
  runner (self st) = Some rn ->
  vectorstore (self st) = Some vs ->
  exists k : nat,
    (k <= Z.to_nat (5 * n))%nat /\
    (events (snd (create_questions env documents n st)) =
       (events st ++ repeat (EvInvoke (chain_input (self st))) k)%list \/
     events (snd (create_questions env documents n st)) =
       (events st ++ repeat (EvInvoke (chain_input (self st))) k
        ++ [EvDeleteCollection (collection vs)])%list) /\
    (n <= 10 ->
     (forall j, (j < Z.to_nat (5 * n))%nat ->
        candidate (chain_reply env (chain_calls st + j)) <> None) ->
     events (snd (create_questions env documents n st)) =
       (events st ++ repeat (EvInvoke (chain_input (self st))) k
        ++ [EvDeleteCollection (collection vs)])%list).
Proof.
  intros Hr Hvs. rewrite create_questions_eq.
  destruct (10 <? n) eqn:Hc.
  { exists 0%nat. simpl. rewrite app_nil_r.
    split; [lia|]. split; [left; reflexivity|].
    intros Hn. apply Z.ltb_lt in Hc. lia. }
  rewrite (compile_again env documents st rn Hr).
  match goal with
  | |- context [while_loop env ?c n (n * 5) [] 0 st] =>
      pose proof (while_loop_returns env c n (n * 5) (Z.to_nat (n * 5)) [] 0 st)
        as Hret;
      destruct (while_loop env c n (n * 5) [] 0 st) as [[gq|e] st2] eqn:Hloop
  end;
    destruct (while_loop_inv env _ _ _ _ _ _ _ _ _ eq_refl Hloop)
      as (k & Hk & -> & _);
    exists k; (split; [lia|]).
  - simpl. rewrite Hvs. simpl. rewrite <- app_assoc.
    split; [right; reflexivity|]. intros _ _. reflexivity.
  - simpl. split; [left; reflexivity|]. intros _ Hok. exfalso.
    destruct Hret as (gq' & st' & Habs); [f_equal; lia| |discriminate Habs].
    replace (Z.to_nat (n * 5)) with (Z.to_nat (5 * n)) by lia. exact Hok.
Qed.

Lemma x9_later_call_builds_nothing_witness :
  let st := snd (create_questions (mock_env always_incomplete) some_documents
                   1 (fresh_state fill_in_the_blank_builder)) in
  exists k : nat,
    (k <= Z.to_nat (5 * 1))%nat /\
    (events (snd (create_questions (mock_env always_incomplete) [] 1 st)) =
       (events st ++ repeat (EvInvoke (chain_input (self st))) k)%list \/
     events (snd (create_questions (mock_env always_incomplete) [] 1 st)) =
       (events st ++ repeat (EvInvoke (chain_input (self st))) k
        ++ [EvDeleteCollection
              (collection
                 (new_vectorstore some_documents
                    (fresh_state fill_in_the_blank_builder)))])%list) /\
    (1 <= 10 ->
     (forall j, (j < Z.to_nat (5 * 1))%nat ->
        candidate (chain_reply (mock_env always_incomplete)
                     (chain_calls st + j)) <> None) ->
     events (snd (create_questions (mock_env always_incomplete) [] 1 st)) =
       (events st ++ repeat (EvInvoke (chain_input (self st))) k
        ++ [EvDeleteCollection
              (collection
                 (new_vectorstore some_documents
                    (fresh_state fill_in_the_blank_builder)))])%list).
Proof.
  intros st.
  apply (x9_later_call_builds_nothing (mock_env always_incomplete) [] 1 st
           (RunnableParallel
              (as_retriever
                 (new_vectorstore some_documents
                    (fresh_state fill_in_the_blank_builder))))
           (new_vectorstore some_documents
              (fresh_state fill_in_the_blank_builder))).
  - vm_compute. reflexivity.
  - vm_compute. reflexivity.
Defined.

(** X10: no call to [create_questions], returning or raising, changes the
    configuration of the builder (question type, prompt, model, parser,
    embedding model, vector store class, topic, language, verbosity), and
    none creates more than one collection. *)
Theorem x10_configuration_kept (env : Env) (documents : list Document)
    (n : Z) (st : State) :
  config (self (snd (create_questions env documents n st))) = config (self st)
  /\ (collections (snd (create_questions env documents n st))
      <= S (collections st))%nat.
Proof.
  rewrite create_questions_eq.
  destruct (10 <? n); [simpl; split; [reflexivity|lia]|].
  assert (exists o st1, compile env documents st = (o, st1) /\
            config (self st1) = config (self st) /\
            (collections st1 <= S (collections st))%nat)
    as (o & st1 & -> & Hcfg & Hcol).
  { destruct (runner (self st)) as [rn|] eqn:Hr.
    - rewrite (compile_again env documents st rn Hr).
      eexists. eexists. split; [reflexivity|]. split; [reflexivity|lia].
    - destruct (from_documents_error env (vectorstore_class (self st))
                  documents (embedding_model (self st))) as [e|] eqn:Hb.
      + rewrite (compile_first_fails env documents st e Hr Hb).
        eexists. eexists. split; [reflexivity|]. simpl. split; [reflexivity|lia].
      + rewrite (compile_first env documents st Hr Hb).
        eexists. eexists. split; [reflexivity|]. simpl. split; [reflexivity|lia]. }
  destruct o as [chain|e]; [|simpl; split; assumption].
  destruct (while_loop env chain n (n * 5) [] 0 st1) as [r st2] eqn:Hloop.
  destruct (while_loop_inv env _ _ _ _ _ _ _ _ _ eq_refl Hloop)
    as (k & _ & -> & _).
  destruct r as [gq|e]; [|simpl; split; assumption].
  destruct (vectorstore (self (after_attempts k st1)));
    simpl; split; assumption.
Qed.

(** ** Replies that are not objects *)

(** X11: only an object can become a question.  A reply is accepted only
    when it decodes to a dictionary which, once ["model_config"] is
    deleted, passes validation; a JSON array, string, number or [null] is
    never accepted, whatever it contains. *)
Theorem x11_only_objects_accepted (env : Env) (b : QuizBuilder)
    (r : ChainReply) :
  accepted env b r = true ->
  exists d : gmap string value,
    r = Json (VDict d) /\
    validate_question env b (VDict (delete "model_config" d)) = true.
Proof.
  unfold accepted, candidate. destruct r as [e|text|v]; try discriminate.
  destruct (discard_model_config v) as [v'|e] eqn:Hd; [|discriminate].
  intros Hv.
  destruct (validate_question_true env b v' Hv) as (schema & kw & _ & -> & _).
  destruct v as [| | | | s | l | d]; try discriminate.
  - simpl in Hd. destruct (str_contains "model_config" s); discriminate.
  - simpl in Hd. destruct (existsb is_model_config l); discriminate.
  - exists d. split; [reflexivity|].
    rewrite discard_model_config_dict in Hd. injection Hd as Hd.
    rewrite Hd. exact Hv.
Qed.

Lemma x11_only_objects_accepted_witness :
  exists d : gmap string value,
    Json (VDict capital_of_france) = Json (VDict d) /\
    validate_question (mock_env always_raises) multiple_choice_builder
      (VDict (delete "model_config" d)) = true.
Proof.
  apply (x11_only_objects_accepted (mock_env always_raises)
           multiple_choice_builder (Json (VDict capital_of_france))).
  vm_compute. reflexivity.
Defined.

(** X12: normalisation is idempotent: what it returns it returns
    unchanged when applied again. *)
Theorem x12_discard_model_config_idempotent (v v' : value) :
  discard_model_config v = Returned v' ->
  discard_model_config v' = Returned v'.
Proof.
  destruct v as [| | | | s | l | d]; simpl; try discriminate.
  - destruct (str_contains "model_config" s) eqn:Hs; [discriminate|].
    intros [= <-]. simpl. rewrite Hs. reflexivity.
  - destruct (existsb is_model_config l) eqn:Hl; [discriminate|].
    intros [= <-]. simpl. rewrite Hl. reflexivity.
  - intros Hd. pose proof (discard_model_config_dict d) as Hd'.
    simpl in Hd'. rewrite Hd' in Hd. injection Hd as <-.
    rewrite discard_model_config_dict, delete_delete_eq. reflexivity.
Qed.

Lemma x12_discard_model_config_idempotent_witness :
  discard_model_config (VDict capital_of_france)
  = Returned (VDict capital_of_france).
Proof.
  apply (x12_discard_model_config_idempotent
           (VDict (<["model_config" := VDict ∅]> capital_of_france))
           (VDict capital_of_france)).
  vm_compute. reflexivity.
Defined.

(** ** The constructor *)

Lemma dict_get_In {A} (d : list (string * A)) (k : string) :
  In k (map fst d) -> dict_get d k <> None.
Proof.
  induction d as [|[k' a] d IH]; simpl; [contradiction|].
  destruct (String.eqb_spec k' k) as [->|Hne]; [discriminate|].
  intros [Heq|Hin]; [congruence|exact (IH Hin)].
Qed.

(** A builder the constructor returns carries the question type it was
    given and has no pipeline. *)
Lemma init_returned (env : Env) (topic0 : option string) (qt lang0 : string)
    (vsc : option VectorstoreClass) (prompt0 : option string)
    (emb : option Embeddings) (model0 : option LLM)
    (parser0 : option OutputParser) (verbose0 : bool) (b : QuizBuilder) :
  __init__ env topic0 qt lang0 vsc prompt0 emb model0 parser0 verbose0
  = Returned b ->
  question_type b = qt /\ lang b = lang0 /\ topic0 = Some (topic b) /\
  vectorstore b = None /\ retriever b = None /\ runner b = None.
Proof.
  unfold __init__, and_then.
  destruct (new_GoogleGenerativeAI env "gemini-1.5-pro"); [|discriminate].
  destruct (new_GoogleGenerativeAIEmbeddings env "models/embedding-001");
    [|discriminate].
  destruct (get_parser_for_question_type qt); [|discriminate].
  destruct (read_text_file env "prompt/quizzify-prompt.txt"); [|discriminate].
  destruct vsc; [|discriminate]. destruct topic0; [|discriminate].
  intros [= <-]. simpl. repeat split.
Qed.

(** X13: what it takes to construct a builder.  The constructor returns
    exactly when the question type is a key of the mapping, both default
    Google clients can be constructed, the prompt file can be read, and
    neither the vector store class nor the topic is [None].  Overrides for
    the model, the embedding model, the prompt or the parser spare none of
    this. *)
Theorem x13_constructor_returns_iff (env : Env) (topic0 : option string)
    (qt lang0 : string) (vsc : option VectorstoreClass)
    (prompt0 : option string) (emb : option Embeddings)
    (model0 : option LLM) (parser0 : option OutputParser) (verbose0 : bool) :
  is_returned (__init__ env topic0 qt lang0 vsc prompt0 emb model0 parser0
                 verbose0) = true
  <->
  is_returned (new_GoogleGenerativeAI env "gemini-1.5-pro") = true /\
  is_returned (new_GoogleGenerativeAIEmbeddings env "models/embedding-001")
  = true /\
  In qt (map fst schema_mapping) /\
  is_returned (read_text_file env "prompt/quizzify-prompt.txt") = true /\
  vsc <> None /\ topic0 <> None.
Proof.
  unfold __init__, and_then, get_parser_for_question_type.
  destruct (new_GoogleGenerativeAI env "gemini-1.5-pro") as [m|e1];
    destruct (new_GoogleGenerativeAIEmbeddings env "models/embedding-001")
      as [em|e2];
    destruct (dict_get schema_mapping qt) as [schema|] eqn:Hget;
    destruct (read_text_file env "prompt/quizzify-prompt.txt") as [p|e3];
    destruct vsc as [c|]; destruct topic0 as [t|]; cbn [is_returned];
    (split;
     [ intros H; try discriminate H;
       repeat split; try discriminate; exact (dict_get_Some _ _ _ Hget)
     | intros (H1 & H2 & H3 & H4 & H5 & H6);
       try discriminate H1; try discriminate H2; try discriminate H4;
       try (exfalso; exact (dict_get_In _ _ H3 Hget));
       try congruence; reflexivity ]).
Qed.

(** X14: the constructor's two own checks.  When the defaults can be
    computed, a missing vector store class raises "Vectorstore must be
    provided", also when the topic is missing too, and a missing topic
    alone raises "Topic must be provided". *)
Theorem x14_constructor_checks (env : Env) (topic0 : option string)
    (qt lang0 : string) (vsc : option VectorstoreClass)
    (prompt0 : option string) (emb : option Embeddings)
    (model0 : option LLM) (parser0 : option OutputParser) (verbose0 : bool) :
  is_returned (new_GoogleGenerativeAI env "gemini-1.5-pro") = true ->
  is_returned (new_GoogleGenerativeAIEmbeddings env "models/embedding-001")
  = true ->
  In qt (map fst schema_mapping) ->
  is_returned (read_text_file env "prompt/quizzify-prompt.txt") = true ->
  vsc = None \/ topic0 = None ->
  __init__ env topic0 qt lang0 vsc prompt0 emb model0 parser0 verbose0 =
  Raised (ValueError (match vsc with
                      | None => "Vectorstore must be provided"
                      | Some _ => "Topic must be provided"
                      end)).
Proof.
  intros Hm He Hq Hp Hnone.
  unfold __init__, and_then, get_parser_for_question_type.
  destruct (new_GoogleGenerativeAI env "gemini-1.5-pro"); [|discriminate].
  destruct (new_GoogleGenerativeAIEmbeddings env "models/embedding-001");
    [|discriminate].
  destruct (dict_get schema_mapping qt) eqn:Hget.
  - destruct (read_text_file env "prompt/quizzify-prompt.txt");
      [|discriminate].
    destruct vsc; [|reflexivity]. destruct topic0; [|reflexivity].
    destruct Hnone; discriminate.
  - exfalso. exact (dict_get_In _ _ Hq Hget).
Qed.

Lemma x14_constructor_checks_witness :
  __init__ (mock_env always_raises) None "true_false" "en" None
    None None None None false =
  Raised (ValueError "Vectorstore must be provided").
Proof.
  apply (x14_constructor_checks (mock_env always_raises) None "true_false"
           "en" None None None None None false).
  - reflexivity.
  - reflexivity.
  - simpl. auto 10.
  - reflexivity.
  - left. reflexivity.
Defined.

(** X15: what a constructed builder holds.  It has no vector store,
    retriever or runner yet; each override that is given (and, for the
    prompt, not empty) is what the builder holds, otherwise the default:
    the client for "gemini-1.5-pro", the embeddings for
    "models/embedding-001", the text of the prompt file, a JSON parser for
    the class of the question type. *)
Theorem x15_constructed_builder (env : Env) (topic0 : option string)
    (qt lang0 : string) (vsc : option VectorstoreClass)
    (prompt0 : option string) (emb : option Embeddings)
    (model0 : option LLM) (parser0 : option OutputParser) (verbose0 : bool)
    (b : QuizBuilder) :
  __init__ env topic0 qt lang0 vsc prompt0 emb model0 parser0 verbose0
  = Returned b ->
  vectorstore b = None /\ retriever b = None /\ runner b = None /\
  question_type b = qt /\ lang b = lang0 /\ verbose b = verbose0 /\
  topic0 = Some (topic b) /\ vsc = Some (vectorstore_class b) /\
  (forall p, parser0 = Some p -> parser b = p) /\
  (parser0 = None ->
   exists schema, dict_get schema_mapping qt = Some schema /\
                  parser b = JsonOutputParser schema) /\
  (forall m, model0 = Some m -> model b = m) /\
  (model0 = None ->
   new_GoogleGenerativeAI env "gemini-1.5-pro" = Returned (model b)) /\
  (forall em, emb = Some em -> embedding_model b = em) /\
  (emb = None ->
   new_GoogleGenerativeAIEmbeddings env "models/embedding-001"
   = Returned (embedding_model b)) /\
  (forall p, prompt0 = Some p -> p <> "" -> prompt b = p) /\
  (prompt0 = None \/ prompt0 = Some "" ->
   read_text_file env "prompt/quizzify-prompt.txt" = Returned (prompt b)).
Proof.
  unfold __init__, and_then, get_parser_for_question_type.
  destruct (new_GoogleGenerativeAI env "gemini-1.5-pro") as [m|]; [|discriminate].
  destruct (new_GoogleGenerativeAIEmbeddings env "models/embedding-001")
    as [em|]; [|discriminate].
  destruct (dict_get schema_mapping qt) as [schema|]; [|discriminate].
  destruct (read_text_file env "prompt/quizzify-prompt.txt") as [p|];
    [|discriminate].
  destruct vsc as [c|]; [|discriminate].
  destruct topic0 as [t|]; [|discriminate].
  intros [= <-]. simpl.
  repeat (split; [reflexivity|]).
  split; [intros p0 ->; reflexivity|].
  split; [intros ->; exists schema; split; reflexivity|].
  split; [intros m0 ->; reflexivity|].
  split; [intros ->; reflexivity|].
  split; [intros em0 ->; reflexivity|].
  split; [intros ->; reflexivity|].
  split.
  - intros p0 -> Hne. destruct p0; [contradiction|reflexivity].
  - intros [->| ->]; reflexivity.
Qed.

Lemma x15_constructed_builder_witness :
  let env := mock_env always_raises in
  let b := multiple_choice_builder in
  vectorstore b = None /\ retriever b = None /\ runner b = None /\
  question_type b = "multiple_choice" /\ lang b = "en" /\ verbose b = true /\
  Some "Paris" = Some (topic b) /\ Some Chroma = Some (vectorstore_class b) /\
  (forall p, @None OutputParser = Some p -> parser b = p) /\
  (@None OutputParser = None ->
   exists schema, dict_get schema_mapping "multiple_choice" = Some schema /\
                  parser b = JsonOutputParser schema) /\
  (forall m, @None LLM = Some m -> model b = m) /\
  (@None LLM = None ->
   new_GoogleGenerativeAI env "gemini-1.5-pro" = Returned (model b)) /\
  (forall em, @None Embeddings = Some em -> embedding_model b = em) /\
  (@None Embeddings = None ->
   new_GoogleGenerativeAIEmbeddings env "models/embedding-001"
   = Returned (embedding_model b)) /\
  (forall p, Some "" = Some p -> p <> "" -> prompt b = p) /\
  (Some "" = None \/ Some "" = Some "" ->
   read_text_file env "prompt/quizzify-prompt.txt" = Returned (prompt b)).
Proof.
  apply (x15_constructed_builder (mock_env always_raises)
           (Some "Paris") "multiple_choice" "en" (Some Chroma)
           (Some "") None None None true multiple_choice_builder).
  reflexivity.
Defined.

(** ** The registry *)

(** X16: a question type resolves exactly when it is one of the seven keys
    of the mapping, the six documented types and ["default"]; what it
    resolves to is always a JSON parser for a class that requires a
    ["question"] field of type string. *)
Theorem x16_resolves_iff_key (qt : string) :
  (is_returned (get_parser_for_question_type qt) = true <->
   In qt (documented_types ++ ["default"])%list) /\
  (forall p, get_parser_for_question_type qt = Returned p ->
     exists schema, p = JsonOutputParser schema /\
                    dict_get (schema_fields schema) "question" = Some TStr).
Proof.
  split.
  - rewrite <- schema_mapping_keys. unfold get_parser_for_question_type.
    destruct (dict_get schema_mapping qt) as [schema|] eqn:Hget;
      cbn [is_returned].
    + split; [intros _; exact (dict_get_Some _ _ _ Hget)|reflexivity].
    + split; [discriminate|]. intros Hin. exfalso.
      exact (dict_get_In schema_mapping qt Hin Hget).
  - unfold get_parser_for_question_type. intros p.
    destruct (dict_get schema_mapping qt) as [schema|] eqn:Hget;
      [|discriminate].
    intros [= <-]. exists schema. split; [reflexivity|].
    unfold schema_mapping in Hget. simpl in Hget.
    repeat match type of Hget with
           | (if ?c then _ else _) = _ =>
               destruct c; [injection Hget as <-; reflexivity|]
           end.
    discriminate.
Qed.

(** ** The request handler *)

(** X17: the exceptions that leave the handler.  It raises
    [ToolExecutorError] exactly when the loader raises [LoaderError], with
    the loader's message.  It raises anything else exactly when the loader
    raises another exception, or the constructor raises, or
    [create_questions] raises; and what it then raises is the [ValueError]
    whose message is "Error in executor: " followed by the text of that
    very exception. *)
Theorem x17_handler_exceptions (env : Env) (h : Handler)
    (data : schemas.QuizzifyArgs) (st : State) :
  (forall message,
     fst (submit_tool env h data st) = RaisesToolExecutorError message <->
     get_docs h (schemas.file_url data) (schemas.file_type data) true
     = LoaderError message) /\
  (forall e,
     fst (submit_tool env h data st) = Raises e <->
     exists cause,
       e = ValueError (String.append "Error in executor: " (py_str h cause))
       /\
       (get_docs h (schemas.file_url data) (schemas.file_type data) true
        = LoadRaises cause \/
        exists docs,
          get_docs h (schemas.file_url data) (schemas.file_type data) true
          = Loaded docs /\
          (__init__ env (Some (schemas.topic data))
             (schemas.question_type data) (lang_text (schemas.lang data))
             (Some Chroma) None None None None true = Raised cause \/
           exists b,
             __init__ env (Some (schemas.topic data))
               (schemas.question_type data) (lang_text (schemas.lang data))
               (Some Chroma) None None None None true = Returned b /\
             fst (create_questions env docs (schemas.n_questions data)
                    (mkState b (chain_calls st) (collections st) (events st)))
             = Raised cause))).
Proof.
  unfold submit_tool, executor_error.
  destruct (get_docs h (schemas.file_url data) (schemas.file_type data) true)
    as [docs|message0|e0].
  - destruct (__init__ env (Some (schemas.topic data))
                (schemas.question_type data) (lang_text (schemas.lang data))
                (Some Chroma) None None None None true) as [b|e1].
    + destruct (create_questions env docs (schemas.n_questions data)
                  (mkState b (chain_calls st) (collections st) (events st)))
        as [[out|e2] st'] eqn:Hcq; simpl.
      * split; [intros message; split; discriminate|].
        intros e. split; [discriminate|].
        intros (cause & _ & [H|(docs' & Hd & [H|(b' & Hb & H)])]);
          try discriminate H.
        injection Hd as <-. injection Hb as <-.
        rewrite Hcq in H. discriminate H.
      * split; [intros message; split; discriminate|].
        intros e. split.
        -- intros [= <-]. exists e2. split; [reflexivity|].
           right. exists docs. split; [reflexivity|].
           right. exists b. split; [reflexivity|].
           rewrite Hcq. reflexivity.
        -- intros (cause & -> & [H|(docs' & Hd & [H|(b' & Hb & H)])]);
             try discriminate H.
           injection Hd as <-. injection Hb as <-.
           rewrite Hcq in H. injection H as <-. reflexivity.
    + simpl. split; [intros message; split; discriminate|].
      intros e. split.
      * intros [= <-]. exists e1. split; [reflexivity|].
        right. exists docs. split; [reflexivity|]. left. reflexivity.
      * intros (cause & -> & [H|(docs' & _ & [H|(b' & H & _)])]);
          try discriminate H.
        injection H as <-. reflexivity.
  - simpl. split; [intros message; split; congruence|].
    intros e. split; [discriminate|].
    intros (cause & _ & [H|(docs' & H & _)]); discriminate H.
  - simpl. split; [intros message; split; discriminate|].
    intros e. split.
    + intros [= <-]. exists e0. split; [reflexivity|]. left. reflexivity.
    + intros (cause & -> & [H|(docs' & H & _)]); try discriminate H.
      injection H as <-. reflexivity.
Qed.

(** X18: a request for a question type that is not a key of the mapping,
    whose documents load and for which the default clients construct, ends
    in [ValueError] "Error in executor: Unsupported question type: ..."; no
    vector store is built and the chain is not invoked. *)
Theorem x18_handler_unsupported_type (env : Env) (h : Handler)
    (data : schemas.QuizzifyArgs) (st : State) (docs : list Document) :
  get_docs h (schemas.file_url data) (schemas.file_type data) true
  = Loaded docs ->
  is_returned (new_GoogleGenerativeAI env "gemini-1.5-pro") = true ->
  is_returned (new_GoogleGenerativeAIEmbeddings env "models/embedding-001")
  = true ->
  dict_get schema_mapping (schemas.question_type data) = None ->
  submit_tool env h data st =
  (Raises (ValueError
             (String.append "Error in executor: "
                (String.append "Unsupported question type: "
                   (schemas.question_type data)))),
   st).
Proof.
  intros Hdocs Hm He Hget.
  unfold submit_tool, executor_error. rewrite Hdocs.
  unfold __init__, and_then, get_parser_for_question_type. rewrite Hget.
  destruct (new_GoogleGenerativeAI env "gemini-1.5-pro"); [|discriminate].
  destruct (new_GoogleGenerativeAIEmbeddings env "models/embedding-001");
    [|discriminate].
  reflexivity.
Qed.

Lemma x18_handler_unsupported_type_witness :
  submit_tool (mock_env always_incomplete) mock_handler
    (paris_request 3 "essay") (fresh_state multiple_choice_builder) =
  (Raises (ValueError
             (String.append "Error in executor: "
                (String.append "Unsupported question type: "
                   (schemas.question_type (paris_request 3 "essay"))))),
   fresh_state multiple_choice_builder).
Proof.
  apply (x18_handler_unsupported_type (mock_env always_incomplete)
           mock_handler (paris_request 3 "essay")
           (fresh_state multiple_choice_builder) some_documents).
  - reflexivity.
  - reflexivity.
  - reflexivity.
  - reflexivity.
Defined.

(** X19: a request for more than ten questions, whose documents load and
    whose builder constructs, is answered, not refused: the handler
    responds with the error dictionary as its output, having built no
    vector store and invoked no chain. *)
Theorem x19_handler_count_above_ten (env : Env) (h : Handler)
    (data : schemas.QuizzifyArgs) (st : State) (docs : list Document)
    (b : QuizBuilder) :
  get_docs h (schemas.file_url data) (schemas.file_type data) true
  = Loaded docs ->
  __init__ env (Some (schemas.topic data)) (schemas.question_type data)
    (lang_text (schemas.lang data)) (Some Chroma) None None None None true
  = Returned b ->
  10 < schemas.n_questions data ->
  exists st',
    submit_tool env h data st = (Responds too_many_questions, st') /\
    events st' = events st /\ chain_calls st' = chain_calls st /\
    collections st' = collections st.
Proof.
  intros Hdocs Hinit Hn. unfold submit_tool. rewrite Hdocs, Hinit.
  rewrite create_questions_eq. apply Z.ltb_lt in Hn. rewrite Hn.
  eexists. split; [reflexivity|]. repeat split.
Qed.

Lemma x19_handler_count_above_ten_witness :
  exists st',
    submit_tool (mock_env always_incomplete) mock_handler
      (paris_request 11 "multiple_choice")
      (fresh_state fill_in_the_blank_builder)
    = (Responds too_many_questions, st') /\
    events st' = events (fresh_state fill_in_the_blank_builder) /\
    chain_calls st' = chain_calls (fresh_state fill_in_the_blank_builder) /\
    collections st' = collections (fresh_state fill_in_the_blank_builder).
Proof.
  apply (x19_handler_count_above_ten (mock_env always_incomplete)
           mock_handler (paris_request 11 "multiple_choice")
           (fresh_state fill_in_the_blank_builder) some_documents
           multiple_choice_builder).
  - reflexivity.
  - reflexivity.
  - simpl. lia.
Defined.

(** X20: a request for at most ten questions that is answered.  The output
    is a list of at most [n_questions] dictionaries from which the class of
    the requested question type constructs; and the calls made for it are
    one [from_documents] on the loaded documents, at most
    [5 * n_questions] invocations of the chain on the input formatted from
    the request, and one [delete_collection] on the collection just built.
    Every request gets a new builder, so none reuses a vector store. *)
Theorem x20_handler_answer (env : Env) (h : Handler)
    (data : schemas.QuizzifyArgs) (st : State) (output : value)
    (st' : State) :
  schemas.n_questions data <= 10 ->
  submit_tool env h data st = (Responds output, st') ->
  exists (docs : list Document) (qs : list value) (k : nat),
    get_docs h (schemas.file_url data) (schemas.file_type data) true
    = Loaded docs /\
    output = VList qs /\
    (length qs <= Z.to_nat (schemas.n_questions data))%nat /\
    Forall (fun q =>
              exists schema kwargs,
                dict_get schema_mapping (schemas.question_type data)
                = Some schema /\
                q = VDict kwargs /\
                pydantic_init env schema kwargs = true) qs /\
    (k <= Z.to_nat (5 * schemas.n_questions data))%nat /\
    events st' =
      (events st
       ++ EvFromDocuments docs
          :: repeat
               (EvInvoke
                  (String.append "Topic: "
                     (String.append (schemas.topic data)
                        (String.append ", Lang: "
                           (String.append (lang_text (schemas.lang data))
                              (String.append ", Question type: "
                                 (schemas.question_type data))))))) k
       ++ [EvDeleteCollection (collections st)])%list.
Proof.
  intros Hn Hrun. unfold submit_tool in Hrun.
  destruct (get_docs h (schemas.file_url data) (schemas.file_type data) true)
    as [docs|message0|e0]; try discriminate.
  destruct (__init__ env (Some (schemas.topic data))
              (schemas.question_type data) (lang_text (schemas.lang data))
              (Some Chroma) None None None None true) as [b|e1] eqn:Hinit;
    [|discriminate].
  destruct (init_returned env _ _ _ _ _ _ _ _ _ b Hinit)
    as (Hqt & Hlang & Htopic & _ & _ & Hrunner).
  injection Htopic as Htopic.
  set (st0 := mkState b (chain_calls st) (collections st) (events st)) in *.
  destruct (create_questions env docs (schemas.n_questions data) st0)
    as [[out|e2] st2] eqn:Hcq; [|discriminate].
  injection Hrun as -> ->.
  destruct (from_documents_error env (vectorstore_class (self st0)) docs
              (embedding_model (self st0))) as [e|] eqn:Hb.
  { rewrite create_questions_eq in Hcq.
    destruct (10 <? schemas.n_questions data) eqn:Hc;
      [apply Z.ltb_lt in Hc; lia|].
    rewrite (compile_first_fails env docs st0 e Hrunner Hb) in Hcq.
    discriminate. }
  rewrite (create_questions_first env docs _ st0 Hn Hrunner Hb) in Hcq.
  destruct (while_loop env (compiled_chain docs st0) (schemas.n_questions data)
              (schemas.n_questions data * 5) [] 0 (compiled docs st0))
    as [[gq|e] s2] eqn:Hloop; [|discriminate].
  injection Hcq as <- <-.
  destruct (while_loop_inv env _ _ _ _ _ _ _ _ _ eq_refl Hloop)
    as (k & Hk & -> & Hres).
  destruct (Hres gq eq_refl) as ((new & Hnew & Hall) & Hlen & _).
  simpl in Hnew, Hlen. subst new.
  rewrite py_slice_to_length by lia.
  exists docs, gq, k. split; [reflexivity|]. split; [reflexivity|].
  split; [lia|]. split; [|split; [lia|]].
  - eapply Forall_impl; [exact Hall|]. intros q Hq. simpl in Hq.
    destruct (validate_question_true env _ q Hq) as (schema & kw & Hs & Hd & Hp).
    simpl in Hs. rewrite Hqt in Hs. eauto.
  - unfold released, after_attempts, compiled, chain_input; simpl.
    rewrite Hqt, Hlang, <- Htopic, <- !app_assoc. reflexivity.
Qed.

Lemma x20_handler_answer_witness :
  exists (docs : list Document) (qs : list value) (k : nat),
    get_docs mock_handler
      (schemas.file_url (paris_request 1 "fill_in_the_blank"))
      (schemas.file_type (paris_request 1 "fill_in_the_blank")) true
    = Loaded docs /\
    VList [VDict five_blanks] = VList qs /\
    (length qs
     <= Z.to_nat (schemas.n_questions (paris_request 1 "fill_in_the_blank")))%nat
    /\
    Forall (fun q =>
              exists schema kwargs,
                dict_get schema_mapping
                  (schemas.question_type (paris_request 1 "fill_in_the_blank"))
                = Some schema /\
                q = VDict kwargs /\
                pydantic_init (mock_env incomplete_then_valid) schema kwargs
                = true) qs /\
    (k <= Z.to_nat
            (5 * schemas.n_questions (paris_request 1 "fill_in_the_blank")))%nat
    /\
    events (snd (submit_tool (mock_env incomplete_then_valid) mock_handler
                   (paris_request 1 "fill_in_the_blank")
                   (fresh_state multiple_choice_builder))) =
      (events (fresh_state multiple_choice_builder)
       ++ EvFromDocuments docs
          :: repeat
               (EvInvoke
                  (String.append "Topic: "
                     (String.append
                        (schemas.topic (paris_request 1 "fill_in_the_blank"))
                        (String.append ", Lang: "
                           (String.append
                              (lang_text
                                 (schemas.lang
                                    (paris_request 1 "fill_in_the_blank")))
                              (String.append ", Question type: "
                                 (schemas.question_type
                                    (paris_request 1 "fill_in_the_blank")))))))) k
       ++ [EvDeleteCollection
             (collections (fresh_state multiple_choice_builder))])%list.
Proof.
  apply (x20_handler_answer (mock_env incomplete_then_valid) mock_handler
           (paris_request 1 "fill_in_the_blank")
           (fresh_state multiple_choice_builder)
           (VList [VDict five_blanks])).
  - simpl. lia.
  - vm_compute. reflexivity.
Defined.

(** X21: whatever a request asks for and however it ends, handling it
    invokes the chain at most [5 * n_questions] times; and a request whose
    documents do not load, or whose builder cannot be constructed, leaves
    the state as it was: nothing is built and nothing is invoked. *)
Theorem x21_handler_invocations_bounded (env : Env) (h : Handler)
    (data : schemas.QuizzifyArgs) (st : State) :
  (chain_calls (snd (submit_tool env h data st))
   <= chain_calls st + Z.to_nat (5 * schemas.n_questions data))%nat /\
  ((forall docs,
      get_docs h (schemas.file_url data) (schemas.file_type data) true
      <> Loaded docs) \/
   is_returned
     (__init__ env (Some (schemas.topic data)) (schemas.question_type data)
        (lang_text (schemas.lang data)) (Some Chroma) None None None None
        true) = false ->
   snd (submit_tool env h data st) = st).
Proof.
  unfold submit_tool.
  destruct (get_docs h (schemas.file_url data) (schemas.file_type data) true)
    as [docs|message0|e0];
    try (simpl; split; [lia|reflexivity]).
  destruct (__init__ env (Some (schemas.topic data))
              (schemas.question_type data) (lang_text (schemas.lang data))
              (Some Chroma) None None None None true) as [b|e1];
    [|simpl; split; [lia|reflexivity]].
  pose proof (create_questions_calls env docs (schemas.n_questions data)
                (mkState b (chain_calls st) (collections st) (events st)))
    as Hcalls.
  destruct (create_questions env docs (schemas.n_questions data)
              (mkState b (chain_calls st) (collections st) (events st)))
    as [[out|e2] st2]; simpl in *;
    (split;
     [ unfold budget in Hcalls;
       replace (5 * schemas.n_questions data)
         with (schemas.n_questions data * 5) by lia; exact Hcalls
     | intros [Hno|Hinit]; [exfalso; exact (Hno docs eq_refl)|discriminate] ]).
Qed.
